(** * pyps.constants: physical constants and conversion out of atomic units

    A shallow embedding of [pyps/constants.py].  Python floats are IEEE 754
    binary64 numbers and are modelled by Rocq's primitive floats, whose
    products and quotients are specified by [SpecFloat]; the one operation
    outside IEEE 754, [x ** 2.0], is the C library's [pow] and a parameter.
    Python's insertion-ordered [dict] is an association list, exceptions are
    an explicit result type, and the effects of a decorated function are
    threaded through an abstract world. *)

From Stdlib Require Import ZArith List String Ascii Bool Floats Lia QArith Qabs Qpower Lqa.
Import ListNotations.

#[local] Set Warnings "-inexact-float,-register-all".
#[local] Open Scope string_scope.

(** ** Python values and exceptions *)

(** The values that flow through the decorator: what a decorated function
    may return, and what it receives as arguments. *)
Inductive value : Type :=
| VNone
| VBool (b : bool)
| VInt (n : Z)
| VFloat (x : float)
| VStr (s : string)
| VList (items : list value)
| VTuple (items : list value).

(** Exceptions.  [KeyError] carries the missing key and [ValueError] its
    message; the interpreter's own messages are not modelled.  [UserError]
    stands for whatever else a decorated function raises. *)
Inductive exn : Type :=
| KeyError (key : string)
| ValueError (msg : string)
| TypeError
| OverflowError
| ZeroDivisionError
| UserError (name msg : string).

Inductive result (A : Type) : Type :=
| Ok (a : A)
| Raise (e : exn).
Arguments Ok {A} a.
Arguments Raise {A} e.

Definition bind {A B : Type} (r : result A) (k : A -> result B) : result B :=
  match r with
  | Ok a => k a
  | Raise e => Raise e
  end.

Declare Scope py_scope.
Delimit Scope py_scope with py.
Notation "x <- r ;; k" := (bind r (fun x => k))
  (at level 61, r at next level, right associativity) : py_scope.
#[local] Open Scope py_scope.

(** ** dict: insertion-ordered, string keys *)

Definition dict (V : Type) : Type := list (string * V).

Fixpoint dict_get {V : Type} (d : dict V) (k : string) : option V :=
  match d with
  | [] => None
  | (k', v) :: rest => if String.eqb k' k then Some v else dict_get rest k
  end.

(** [d[k]] *)
Definition getitem {V : Type} (d : dict V) (k : string) : result V :=
  match dict_get d k with
  | Some v => Ok v
  | None => Raise (KeyError k)
  end.

(** [k in d] *)
Definition contains {V : Type} (d : dict V) (k : string) : bool :=
  match dict_get d k with
  | Some _ => true
  | None => false
  end.

(** [d[k] = v]: an existing key keeps its position, a new one goes last. *)
Fixpoint setitem {V : Type} (d : dict V) (k : string) (v : V) : dict V :=
  match d with
  | [] => [(k, v)]
  | (k', v') :: rest =>
      if String.eqb k' k then (k', v) :: rest else (k', v') :: setitem rest k v
  end.

(** [list(d.keys())] *)
Definition keys {V : Type} (d : dict V) : list string := map fst d.

(** [d[k1][k2]] and [d[k1][k2] = v] on a dict of dicts.  The inner dict is
    one shared object mutated in place; here it is stored back. *)
Definition getitem2 {V : Type} (d : dict (dict V)) (k1 k2 : string) : result V :=
  inner <- getitem d k1 ;; getitem inner k2.

Definition setitem2 {V : Type} (d : dict (dict V)) (k1 k2 : string) (v : V)
  : result (dict (dict V)) :=
  inner <- getitem d k1 ;; Ok (setitem d k1 (setitem inner k2 v)).

(** ** Arithmetic on values *)

(** [float(n)] for an int: the nearest double, ties to even, and
    OverflowError beyond the range. *)
Definition float_of_int (n : Z) : result float :=
  match binary_normalize prec emax n 0 false with
  | S754_infinity _ => Raise OverflowError
  | sf => Ok (SF2Prim sf)
  end.

(** The operand of a float operation as a double: floats, ints and bools
    convert, everything else does not ([NotImplemented], which ends in a
    TypeError since no other operand type of this model takes over). *)
Definition as_double (v : value) : result float :=
  match v with
  | VFloat y => Ok y
  | VInt n => float_of_int n
  | VBool b => Ok (if b then 1%float else 0%float)
  | VNone | VStr _ | VList _ | VTuple _ => Raise TypeError
  end.

(** [x * r] with [x] a float. *)
Definition float_mul (x : float) (r : value) : result value :=
  y <- as_double r ;; Ok (VFloat (x * y)%float).

(** [n / d] for ints: the correctly rounded quotient. *)
Definition int_truediv (n d : Z) : result value :=
  match d, n with
  | Z0, _ => Raise ZeroDivisionError
  | _, Z0 => Ok (VFloat (if (d <? 0)%Z then (-0)%float else 0%float))
  | _, _ =>
      match SFdiv prec emax
              (S754_finite (n <? 0)%Z (Z.to_pos (Z.abs n)) 0)
              (S754_finite (d <? 0)%Z (Z.to_pos (Z.abs d)) 0) with
      | S754_infinity _ => Raise OverflowError
      | sf => Ok (VFloat (SF2Prim sf))
      end
  end.

Definition is_int (v : value) : option Z :=
  match v with
  | VInt n => Some n
  | VBool b => Some (if b then 1%Z else 0%Z)
  | _ => None
  end.

(** [v / d] *)
Definition truediv (v d : value) : result value :=
  match is_int v, is_int d with
  | Some n, Some m => int_truediv n m
  | _, _ =>
      x <- as_double v ;;
      y <- as_double d ;;
      if (y =? 0)%float then Raise ZeroDivisionError
      else Ok (VFloat (x / y)%float)
  end.

(** ** Text: [repr] of a str and of a list of strs *)

Definition squote : ascii := "039"%char.
Definition dquote : ascii := "034"%char.
Definition backslash : ascii := "092"%char.
Definition newline : ascii := "010"%char.

Fixpoint has_char (c : ascii) (s : string) : bool :=
  match s with
  | EmptyString => false
  | String c' rest => Ascii.eqb c' c || has_char c rest
  end.

Definition hex_digit (n : nat) : ascii :=
  nth n (list_ascii_of_string "0123456789abcdef") "0"%char.

(** One character of a str inside quotes [q].  Characters above 127 are
    kept as they are (printable text is assumed there). *)
Definition repr_char (q c : ascii) : string :=
  let n := nat_of_ascii c in
  if Ascii.eqb c backslash || Ascii.eqb c q then String backslash (String c "")
  else if (n =? 9)%nat then String backslash "t"
  else if (n =? 10)%nat then String backslash "n"
  else if (n =? 13)%nat then String backslash "r"
  else if (n <? 32)%nat || (n =? 127)%nat
       then String backslash (String "x" (String (hex_digit (n / 16))
                                            (String (hex_digit (n mod 16)) "")))
  else String c "".

Fixpoint repr_chars (q : ascii) (s : string) : string :=
  match s with
  | EmptyString => ""
  | String c rest => repr_char q c ++ repr_chars q rest
  end.

(** [repr(s)]: single quotes, unless [s] has a single quote and no double
    quote. *)
Definition repr_str (s : string) : string :=
  let q := if has_char squote s && negb (has_char dquote s) then dquote else squote in
  String q (repr_chars q s ++ String q "").

Fixpoint join (sep : string) (l : list string) : string :=
  match l with
  | [] => ""
  | [x] => x
  | x :: rest => x ++ sep ++ join sep rest
  end.

(** [str(l)] for a list of strs *)
Definition str_of_list (l : list string) : string :=
  "[" ++ join ", " (map repr_str l) ++ "]".

(** [x in l] for a list of strs *)
Definition in_list (x : string) (l : list string) : bool :=
  existsb (fun y => String.eqb x y) l.

(** A [pow] that squares with one correct rounding: an instance of the C
    library function at the only exponent the module uses. *)
Definition square_pow (x y : float) : float := (x * x)%float.

(** Two functions to decorate: one counts its calls in the world and returns
    a float, the other returns a list. *)
Definition tick (args : list value) (kwargs : dict value) (n : nat)
  : result value * nat :=
  (Ok (VFloat 2.0), S n).


(** Two more: one returns a tuple of a float, a str and an int, the other
    raises; both count their calls. *)
Definition readings (args : list value) (kwargs : dict value) (n : nat)
  : result value * nat :=
  (Ok (VTuple [VFloat 2.0; VStr "a"; VInt 3]), S n).

Definition broken (args : list value) (kwargs : dict value) (n : nat)
  : result value * nat :=
  (Raise (UserError "RuntimeError" "no data"), S n).

(** ** The module *)

Section constants.

(** [x ** y] on floats is the C library's [pow].  IEEE 754 does not fix
    its rounding, so it is a parameter of the module. *)
Variable pow : float -> float -> float.

(** The state a decorated function may read and change. *)
Variable World : Type.

#[local] Open Scope float_scope.

Definition CACHE_MAXSIZE : Z := 1000000.

(** CODATA 2018 *)
Definition c : float := 299792458.0.
Definition h : float := 6.62607015e-34.
Definition hbar : float := 1.054571817e-34.
Definition Ry : float := 10973731.568160.
Definition Ry_c : float := 3.2898419602508e15.
Definition e : float := 1.602176634e-19.
Definition m_e : float := 9.1093837015e-31.
Definition alpha : float := 7.2973525693e-3.
Definition En_h : float := pow alpha 2.0 * m_e * pow c 2.0.
Definition a0 : float := hbar / (m_e * c * alpha).
Definition mu_B : float := e * hbar / (2.0 * m_e).
Definition gamma_e : float := 0.5772156649015329.

(** positronium mass *)
Definition mass : float := 2.0 * m_e.
(** reduced electron mass / m_e *)
Definition mu_me : float := 0.5.
(** Rydberg constant for positronium *)
Definition Ry_ps : float := Ry * mu_me.
(** Bohr radius for Ps *)
Definition a_ps : float := a0 / mu_me.

(** The statements that fill [conversion_data], in the module's order.  A
    chained assignment evaluates its right-hand side once and assigns the
    targets from left to right. *)
Definition conversion_data_init : result (dict (dict float)) :=
  let cd : dict (dict float) := [] in
  (* energy *)
  let cd := setitem cd "energy" [] in
  cd <- setitem2 cd "energy" "SI" En_h ;;
  cd <- setitem2 cd "energy" "joule" En_h ;;
  cd <- setitem2 cd "energy" "J" En_h ;;
  let v := En_h / e in
  cd <- setitem2 cd "energy" "electronvolt" v ;;
  cd <- setitem2 cd "energy" "eV" v ;;
  cd <- setitem2 cd "energy" "Hz" (En_h / h) ;;
  cd <- setitem2 cd "energy" "/m" (En_h / (c * h)) ;;
  per_m <- getitem2 cd "energy" "/m" ;;
  let v := per_m / 100.0 in
  cd <- setitem2 cd "energy" "/cm" v ;;
  cd <- setitem2 cd "energy" "wavenumbers" v ;;
  cd <- setitem2 cd "energy" "kayser" v ;;
  (* length *)
  let cd := setitem cd "length" [] in
  cd <- setitem2 cd "length" "SI" a0 ;;
  cd <- setitem2 cd "length" "meter" a0 ;;
  cd <- setitem2 cd "length" "m" a0 ;;
  m <- getitem2 cd "length" "m" ;;
  cd <- setitem2 cd "length" "cm" (m * 100.0) ;;
  (* electric field *)
  let cd := setitem cd "electric field" [] in
  let v := En_h / (e * a0) in
  cd <- setitem2 cd "electric field" "SI" v ;;
  cd <- setitem2 cd "electric field" "V/m" v ;;
  v_m <- getitem2 cd "electric field" "V/m" ;;
  cd <- setitem2 cd "electric field" "V/cm" (v_m * 100.0) ;;
  Ok cd.

(** atomic unit scaling data :: dict(keys=(dimension, units)) *)
Definition conversion_data : dict (dict float) :=
  match conversion_data_init with
  | Ok cd => cd
  | Raise _ => []
  end.

(** *** Functions with effects *)

Definition M (A : Type) : Type := World -> result A * World.

Definition ret {A : Type} (r : result A) : M A := fun w => (r, w).

Definition mbind {A B : Type} (m : M A) (k : A -> M B) : M B :=
  fun w =>
    match m w with
    | (Ok a, w') => k a w'
    | (Raise ex, w') => (Raise ex, w')
    end.

(** A Python function, called with positional and keyword arguments. *)
Definition callable : Type := list value -> dict value -> M value.

(** The decorated function: it takes the keyword [units] besides, whose
    default is [None]. *)
Definition wrapped : Type := list value -> option string -> dict value -> M value.

(** [units is None or units in ["au", "atomic_units"]] *)
Definition no_conversion (units : option string) : bool :=
  match units with
  | None => true
  | Some u => in_list u ["au"; "atomic_units"]
  end.

(** [tuple(data[units] * r if i < nargs else r for i, r in enumerate(result))],
    from index [i] on. *)
Fixpoint scale_items (data : dict float) (units : string) (nargs i : Z)
         (items : list value) : result (list value) :=
  match items with
  | [] => Ok []
  | r :: rest =>
      r' <- (if (i <? nargs)%Z
             then (f <- getitem data units ;; float_mul f r)
             else Ok r) ;;
      rest' <- scale_items data units nargs (i + 1) rest ;;
      Ok (r' :: rest')
  end%py.

Definition unrecognised (dimension units : string) (data : dict float) : string :=
  ("unrecognised " ++ dimension ++ " units : " ++ units ++ " " ++ String newline ""
     ++ "supported units: " ++ str_of_list (keys data))%string.

Definition wrapper (dimension : string) (nargs : Z) (data : dict float)
           (func : callable) : wrapped :=
  fun args units kwargs =>
    if no_conversion units then
      (* no conversion *)
      func args kwargs
    else
      (* [units] is a str here *)
      let u := match units with Some u => u | None => EmptyString end in
      if contains data u then
        (* convert au *)
        mbind (func args kwargs) (fun result =>
          match result with
          | VTuple items =>
              ret (items' <- scale_items data u nargs 0 items ;; Ok (VTuple items'))
          | _ => ret (f <- getitem data u ;; float_mul f result)
          end)
      else
        ret (Raise (ValueError (unrecognised dimension u data))).

Definition decorator (dimension : string) (nargs : Z) (data : dict float)
  : callable -> wrapped :=
  fun func => wrapper dimension nargs data func.

(** Convert the units of functions that return atomic units. *)
Definition atomic_units (dimension : string) (nargs : Z)
  : result (callable -> wrapped) :=
  data <- getitem conversion_data dimension ;;
  Ok (decorator dimension nargs data).

(** [lambda: v] *)
Definition lambda (v : value) : callable :=
  fun args kwargs =>
    match args, kwargs with
    | [], [] => ret (Ok v)
    | _, _ => ret (Raise TypeError)
    end.

(** Convert 'value' from atomic units. *)
Definition convert_au (v : value) (dimension : string) (units : option string)
  : M value :=
  mbind (ret (atomic_units dimension 1)) (fun deco =>
    deco (lambda v) [] units []).

(** Revert 'value' to atomic units. *)
Definition revert_au (v : value) (dimension : string) (units : option string)
  : M value :=
  mbind (ret (atomic_units dimension 1)) (fun deco =>
    mbind (deco (lambda (VInt 1)) [] units []) (fun d =>
      ret (truediv v d))).

(** *** Vocabulary of the properties *)

(** [units] is an alias of [dimension] in the table, with factor [f]. *)
Definition registered (dimension units : string) (f : float) : Prop :=
  getitem2 conversion_data dimension units = Ok f.

(** [pow] squares within one unit in the last place of the rounded
    square. *)
Definition pow_faithful : Prop :=
  forall x : float,
    pow x 2.0 = x * x \/ pow x 2.0 = next_up (x * x) \/ pow x 2.0 = next_down (x * x).

(** [v] is a number a float can be multiplied with. *)
Definition numeric (v : value) : bool :=
  match as_double v with
  | Ok _ => true
  | Raise _ => false
  end.

Definition is_tuple (v : value) : bool :=
  match v with
  | VTuple _ => true
  | _ => false
  end.

(** [part] occurs in [whole]. *)
Definition includes (part whole : string) : Prop :=
  exists pre post : string, whole = (pre ++ part ++ post)%string.

(** The aliases the module assigns in one chained assignment, per
    dimension. *)
Definition alias_groups : list (string * list string) :=
  [ ("energy", ["SI"; "joule"; "J"]);
    ("energy", ["electronvolt"; "eV"]);
    ("energy", ["/cm"; "wavenumbers"; "kayser"]);
    ("length", ["SI"; "meter"; "m"]);
    ("electric field", ["SI"; "V/m"]) ].

(** A decision of [includes] for given texts. *)
Fixpoint starts_with (part whole : string) : bool :=
  match part, whole with
  | EmptyString, _ => true
  | String a part', String b whole' => Ascii.eqb a b && starts_with part' whole'
  | String _ _, EmptyString => false
  end.

Fixpoint includesb (part whole : string) : bool :=
  starts_with part whole
  || match whole with
     | EmptyString => false
     | String _ rest => includesb part rest
     end.

(** The exact value of a finite double, as a rational; 0 for the others. *)
Definition SF2Q (x : spec_float) : Q :=
  match x with
  | S754_finite s m ex =>
      let q := (inject_Z (Zpos m) * 2 ^ ex)%Q in
      if s then (- q)%Q else q
  | _ => 0%Q
  end.

Definition F2Q (x : float) : Q := SF2Q (Prim2SF x).

(** [x] is a normal double: finite, not zero, with a full mantissa. *)
Definition normal (x : float) : bool :=
  match classify x with
  | PNormal | NNormal => true
  | _ => false
  end.

(** Where a value lies between a mantissa and the next one, as the round
    and sticky bits of a shifted record say: on the mantissa, in the lower
    half, on the middle, in the upper half. *)
Definition locates (R : shr_record) (v : Q) : Prop :=
  (0 <= shr_m R)%Z
  /\ match shr_r R, shr_s R with
     | false, false => (v == inject_Z (shr_m R))%Q
     | false, true => (inject_Z (shr_m R) < v /\ v < inject_Z (shr_m R) + (1 # 2))%Q
     | true, false => (v == inject_Z (shr_m R) + (1 # 2))%Q
     | true, true => (inject_Z (shr_m R) + (1 # 2) < v /\ v < inject_Z (shr_m R) + 1)%Q
     end.

(** A record that locates [t], counted in units of [2 ^ e]. *)
Definition represents (R : shr_record) (ex : Z) (t : Q) : Prop :=
  locates R (t * 2 ^ (- ex))%Q.

(** Half a unit in the last place of a finite double. *)
Definition half_ulp (x : float) : Q :=
  match Prim2SF x with
  | S754_finite _ _ ex => ((1 # 2) * 2 ^ ex)%Q
  | _ => 0%Q
  end.

(** [g] on every element in turn; the first exception ends it. *)
Fixpoint traverse (g : value -> result value) (l : list value) : result (list value) :=
  match l with
  | [] => Ok []
  | r :: rest =>
      r' <- g r ;;
      rest' <- traverse g rest ;;
      Ok (r' :: rest')
  end%py.

(** [units] passes one of the two tests of the wrapper: no conversion asked,
    or an alias of [data]. *)
Definition accepted (data : dict float) (units : option string) : bool :=
  match units with
  | None => true
  | Some u => no_conversion units || contains data u
  end.

(** The table, written out. *)
Definition energy_units : dict float :=
  [ ("SI", En_h); ("joule", En_h); ("J", En_h);
    ("electronvolt", En_h / e); ("eV", En_h / e);
    ("Hz", En_h / h);
    ("/m", En_h / (c * h));
    ("/cm", En_h / (c * h) / 100.0);
    ("wavenumbers", En_h / (c * h) / 100.0);
    ("kayser", En_h / (c * h) / 100.0) ].

Definition length_units : dict float :=
  [ ("SI", a0); ("meter", a0); ("m", a0); ("cm", a0 * 100.0) ].

Definition electric_field_units : dict float :=
  [ ("SI", En_h / (e * a0)); ("V/m", En_h / (e * a0));
    ("V/cm", En_h / (e * a0) * 100.0) ].

Definition conversion_table : dict (dict float) :=
  [ ("energy", energy_units);
    ("length", length_units);
    ("electric field", electric_field_units) ].

(** *** The table *)

Lemma conversion_data_init_ok : conversion_data_init = Ok conversion_table.
Proof. reflexivity. Qed.

Lemma conversion_data_eq : conversion_data = conversion_table.
Proof. reflexivity. Qed.

(** A dimension of the table is one of the three, with its dict. *)
Lemma dimension_inv (dimension : string) (data : dict float) :
  dict_get conversion_data dimension = Some data ->
  In (dimension, data) conversion_table.
Proof.
  rewrite conversion_data_eq. unfold conversion_table.
  cbn [dict_get].
  repeat (match goal with
          | |- context [String.eqb ?a dimension] =>
              destruct (String.eqb_spec a dimension); [subst dimension|]
          end;
          [intros H; inversion H; subst data; cbn; tauto|]).
  discriminate.
Qed.

Lemma registered_data (dimension units : string) (f : float) :
  registered dimension units f <->
  exists data, dict_get conversion_data dimension = Some data
               /\ dict_get data units = Some f.
Proof.
  unfold registered, getitem2, getitem, bind. split.
  - destruct (dict_get conversion_data dimension) as [data|]; [|discriminate].
    destruct (dict_get data units) as [g|] eqn:E; [|discriminate].
    intros H; inversion H; subst. eauto.
  - intros (data & -> & ->). reflexivity.
Qed.

Lemma dict_get_In {V : Type} (d : dict V) (k : string) (v : V) :
  dict_get d k = Some v -> In (k, v) d.
Proof.
  induction d as [|[k' v'] d IH]; cbn; [discriminate|].
  destruct (String.eqb_spec k' k) as [->|_].
  - intros H; inversion H; auto.
  - auto.
Qed.

Lemma dict_get_contains {V : Type} (d : dict V) (k : string) (v : V) :
  dict_get d k = Some v -> contains d k = true.
Proof. unfold contains. now intros ->. Qed.

Lemma dict_get_getitem {V : Type} (d : dict V) (k : string) (v : V) :
  dict_get d k = Some v -> getitem d k = Ok v.
Proof. unfold getitem. now intros ->. Qed.

(** Splits a goal about a registered pair into the rows of the table. *)
Ltac table_rows Hd Hu :=
  apply dimension_inv in Hd; apply dict_get_In in Hu;
  unfold conversion_table in Hd; cbn [In] in Hd;
  repeat match goal with
         | H : _ \/ _ |- _ => destruct H
         | H : False |- _ => destruct H
         | H : (_, _) = (_, _) |- _ =>
             inversion H; clear H; subst;
             unfold energy_units, length_units, electric_field_units in *;
             cbn [In] in *
         end.

(** No alias of the table is one of the two spellings of "no conversion". *)
Lemma registered_converts (dimension units : string) (data : dict float) (f : float) :
  dict_get conversion_data dimension = Some data ->
  dict_get data units = Some f ->
  no_conversion (Some units) = false.
Proof. intros Hd Hu. table_rows Hd Hu; reflexivity. Qed.

Lemma atomic_units_registered (dimension : string) (nargs : Z) (data : dict float) :
  dict_get conversion_data dimension = Some data ->
  atomic_units dimension nargs = Ok (decorator dimension nargs data).
Proof. intros H. unfold atomic_units. now rewrite (dict_get_getitem _ _ _ H). Qed.

(** *** No conversion *)

Lemma convert_au_no_conversion (dimension : string) (data : dict float)
      (units : option string) (x : value) (w : World) :
  dict_get conversion_data dimension = Some data ->
  no_conversion units = true ->
  convert_au x dimension units w = (Ok x, w).
Proof.
  intros Hd Hn. unfold convert_au. rewrite (atomic_units_registered _ 1%Z _ Hd).
  unfold mbind, ret, decorator, wrapper. now rewrite Hn.
Qed.

(** C1: for a registered dimension, a decorated function called without
    [units], or with "au" or "atomic_units", calls the function with the
    other arguments and returns what it returns, in the world it leaves;
    [convert_au] then returns its value as it is. *)
Theorem C1_no_conversion_returns_result_unchanged
        (dimension : string) (data : dict float) (nargs : Z)
        (func : callable) (args : list value) (kwargs : dict value) (w : World) :
  dict_get conversion_data dimension = Some data ->
  exists deco : callable -> wrapped,
    atomic_units dimension nargs = Ok deco
    /\ deco func args None kwargs w = func args kwargs w
    /\ deco func args (Some "au"%string) kwargs w = func args kwargs w
    /\ deco func args (Some "atomic_units"%string) kwargs w = func args kwargs w
    /\ forall x : value,
         convert_au x dimension None w = (Ok x, w)
         /\ convert_au x dimension (Some "au"%string) w = (Ok x, w)
         /\ convert_au x dimension (Some "atomic_units"%string) w = (Ok x, w).
Proof.
  intros Hd. exists (decorator dimension nargs data).
  split; [now apply atomic_units_registered|].
  repeat split; try reflexivity;
    now apply convert_au_no_conversion with (data := data).
Qed.

(** *** Conversion *)

Lemma SFmul_comm (x y : spec_float) : SFmul prec emax x y = SFmul prec emax y x.
Proof.
  destruct x as [sx|sx| |sx mx ex], y as [sy|sy| |sy my ey]; cbn;
    try reflexivity; try (now rewrite xorb_comm).
  now rewrite xorb_comm, Pos.mul_comm, Z.add_comm.
Qed.

Lemma float_mul_comm (x y : float) : (x * y = y * x)%float.
Proof.
  apply Prim2SF_inj. rewrite !mul_spec. apply SFmul_comm.
Qed.

Lemma numeric_as_double (v : value) :
  numeric v = true -> exists y, as_double v = Ok y.
Proof.
  unfold numeric. destruct (as_double v) as [y|]; [eauto|discriminate].
Qed.

(** What the generator of the tuple branch builds, from index [i] on. *)
Lemma scale_items_spec (data : dict float) (units : string) (f : float) (nargs : Z) :
  dict_get data units = Some f ->
  forall (items : list value) (i : Z),
    (forall (k : nat) (r : value),
        nth_error items k = Some r -> (i + Z.of_nat k < nargs)%Z -> numeric r = true) ->
    exists items' : list value,
      scale_items data units nargs i items = Ok items'
      /\ List.length items' = List.length items
      /\ forall (k : nat) (r : value),
           nth_error items k = Some r ->
           exists r' : value,
             nth_error items' k = Some r'
             /\ if (i + Z.of_nat k <? nargs)%Z then float_mul f r = Ok r' else r' = r.
Proof.
  intros Hf. induction items as [|r items IH]; intros i Hnum.
  - exists []. repeat split. intros [|k] r H; discriminate.
  - destruct (IH (i + 1)%Z) as (rest' & Hrest & Hlen & Hnth).
    { intros k r0 Hk Hlt. apply (Hnum (S k) r0 Hk). lia. }
    cbn [scale_items]. rewrite Hrest.
    destruct (i <? nargs)%Z eqn:Ei.
    + destruct (numeric_as_double r) as (y & Hy).
      { apply (Hnum 0%nat r eq_refl). apply Z.ltb_lt in Ei. cbn. lia. }
      rewrite (dict_get_getitem _ _ _ Hf). unfold float_mul at 1. rewrite Hy. cbn [bind].
      eexists. split; [reflexivity|]. split; [cbn; now rewrite Hlen|].
      intros [|k] r0 Hk.
      * inversion Hk; subst r0. eexists. split; [reflexivity|].
        cbn [Z.of_nat]. rewrite Z.add_0_r, Ei. unfold float_mul. now rewrite Hy.
      * destruct (Hnth k r0 Hk) as (r' & Hr' & Hc). exists r'. split; [exact Hr'|].
        replace (i + Z.of_nat (S k))%Z with (i + 1 + Z.of_nat k)%Z by lia. exact Hc.
    + cbn [bind]. eexists. split; [reflexivity|]. split; [cbn; now rewrite Hlen|].
      intros [|k] r0 Hk.
      * inversion Hk; subst r0. eexists. split; [reflexivity|].
        cbn [Z.of_nat]. now rewrite Z.add_0_r, Ei.
      * destruct (Hnth k r0 Hk) as (r' & Hr' & Hc). exists r'. split; [exact Hr'|].
        replace (i + Z.of_nat (S k))%Z with (i + 1 + Z.of_nat k)%Z by lia. exact Hc.
Qed.

(** The conversion branch of the wrapper, once the function has returned. *)
Lemma wrapper_converts (dimension units : string) (data : dict float) (f : float)
      (nargs : Z) (func : callable) (args : list value) (kwargs : dict value)
      (w w' : World) (r : value) :
  no_conversion (Some units) = false ->
  dict_get data units = Some f ->
  func args kwargs w = (Ok r, w') ->
  wrapper dimension nargs data func args (Some units) kwargs w =
    (match r with
     | VTuple items => items' <- scale_items data units nargs 0 items ;; Ok (VTuple items')
     | _ => float_mul f r
     end, w').
Proof.
  intros Hs Hf Hr. unfold wrapper. rewrite Hs, (dict_get_contains _ _ _ Hf).
  unfold mbind. rewrite Hr.
  destruct r; unfold ret; try rewrite (dict_get_getitem _ _ _ Hf); reflexivity.
Qed.

(** C2: for a registered pair with factor [f], a scalar result comes back
    as [f] times it; a tuple result comes back as a tuple of the same
    length, with [f] times the element at every index below [nargs] and
    the other elements as they were.  So [(2.0, 99)] under "eV" with
    [nargs = 1] is [(2.0 * (En_h / e), 99)]. *)
Theorem C2_registered_unit_scales_leading_elements
        (dimension units : string) (data : dict float) (f : float) (nargs : Z)
        (func : callable) (args : list value) (kwargs : dict value)
        (w w' : World) (r : value) :
  dict_get conversion_data dimension = Some data ->
  dict_get data units = Some f ->
  func args kwargs w = (Ok r, w') ->
  exists deco : callable -> wrapped,
    atomic_units dimension nargs = Ok deco
    /\ (forall y : float,
           as_double r = Ok y ->
           deco func args (Some units) kwargs w = (Ok (VFloat (f * y)), w'))
    /\ (forall items : list value,
           r = VTuple items ->
           (forall (k : nat) (r0 : value),
               nth_error items k = Some r0 -> (Z.of_nat k < nargs)%Z ->
               numeric r0 = true) ->
           exists items' : list value,
             deco func args (Some units) kwargs w = (Ok (VTuple items'), w')
             /\ List.length items' = List.length items
             /\ forall (k : nat) (r0 : value),
                  nth_error items k = Some r0 ->
                  exists r' : value,
                    nth_error items' k = Some r'
                    /\ if (Z.of_nat k <? nargs)%Z
                       then float_mul f r0 = Ok r' else r' = r0)
    /\ (forall w0 : World,
           exists deco1 : callable -> wrapped,
             atomic_units "energy" 1 = Ok deco1
             /\ deco1 (lambda (VTuple [VFloat 2.0; VInt 99])) [] (Some "eV"%string) [] w0
                = (Ok (VTuple [VFloat (2.0 * (En_h / e)); VInt 99]), w0)).
Proof.
  intros Hd Hu Hr. exists (decorator dimension nargs data).
  split; [now apply atomic_units_registered|].
  pose proof (registered_converts _ _ _ _ Hd Hu) as Hs.
  unfold decorator. rewrite (wrapper_converts _ _ _ _ _ _ _ _ _ _ _ Hs Hu Hr).
  split; [|split].
  - intros y Hy. unfold float_mul.
    destruct r; cbn in Hy; try discriminate; cbn; rewrite ?Hy; try reflexivity;
      inversion Hy; reflexivity.
  - intros items -> Hnum.
    destruct (scale_items_spec data units f nargs Hu items 0%Z) as (items' & Hsc & Hlen & Hnth).
    { intros k r0 Hk Hlt. now apply (Hnum k r0 Hk). }
    exists items'. rewrite Hsc. repeat split; [exact Hlen|].
    intros k r0 Hk. destruct (Hnth k r0 Hk) as (r' & Hr' & Hc).
    exists r'. split; [exact Hr'|exact Hc].
  - intros w0. eexists. split; [reflexivity|].
    rewrite (float_mul_comm 2.0 (En_h / e)). reflexivity.
Qed.


(** *** Unknown units *)

Lemma append_assoc (a b d : string) : ((a ++ b) ++ d = a ++ b ++ d)%string.
Proof. induction a as [|x a IH]; cbn; [reflexivity|now rewrite IH]. Qed.

Lemma append_nil_r (a : string) : (a ++ "" = a)%string.
Proof. induction a as [|x a IH]; cbn; [reflexivity|now rewrite IH]. Qed.

Lemma starts_with_sound (part whole : string) :
  starts_with part whole = true -> exists post, whole = (part ++ post)%string.
Proof.
  revert whole. induction part as [|a part IH]; intros whole H.
  - exists whole. reflexivity.
  - destruct whole as [|b whole]; [discriminate|]. cbn in H.
    apply andb_true_iff in H as [Hab H]. apply Ascii.eqb_eq in Hab. subst b.
    destruct (IH whole H) as (post & ->). exists post. reflexivity.
Qed.

Lemma includesb_sound (part whole : string) :
  includesb part whole = true -> includes part whole.
Proof.
  induction whole as [|b whole IH]; cbn [includesb]; intros H;
    apply orb_true_iff in H as [H|H].
  - destruct (starts_with_sound _ _ H) as (post & ->). exists ""%string, post. reflexivity.
  - discriminate.
  - destruct (starts_with_sound _ _ H) as (post & ->). exists ""%string, post. reflexivity.
  - destruct (IH H) as (pre & post & ->). exists (String b pre), post. reflexivity.
Qed.

Lemma includes_here (pre part post : string) : includes part (pre ++ part ++ post).
Proof. exists pre, post. reflexivity. Qed.

Lemma includes_after (pre part whole : string) :
  includes part whole -> includes part (pre ++ whole).
Proof.
  intros (a & b & ->). exists (pre ++ a)%string, b. now rewrite append_assoc.
Qed.

Lemma includes_last (pre part : string) : includes part (pre ++ part).
Proof. exists pre, ""%string. now rewrite append_nil_r. Qed.

(** C3: for a registered dimension, a unit that is neither a spelling of
    "no conversion" nor an alias of the dimension makes the call raise
    ValueError, without calling the function; the message has the
    dimension, the unit and the list of all aliases of the dimension.  For
    "energy" and "furlong" it lists SI, joule, J, electronvolt, eV, Hz, /m,
    /cm, wavenumbers and kayser. *)
Theorem C3_unknown_unit_raises_listing_aliases
        (dimension units : string) (data : dict float) (nargs : Z)
        (func : callable) (args : list value) (kwargs : dict value) (w : World) :
  dict_get conversion_data dimension = Some data ->
  no_conversion (Some units) = false ->
  contains data units = false ->
  exists (deco : callable -> wrapped) (msg : string),
    atomic_units dimension nargs = Ok deco
    /\ deco func args (Some units) kwargs w = (Raise (ValueError msg), w)
    /\ (forall x : value,
           convert_au x dimension (Some units) w = (Raise (ValueError msg), w))
    /\ includes dimension msg
    /\ includes units msg
    /\ includes (str_of_list (keys data)) msg
    /\ (forall (a : string) (f : float), dict_get data a = Some f -> includes a msg)
    /\ (exists energy : dict float,
           dict_get conversion_data "energy" = Some energy
           /\ keys energy = ["SI"; "joule"; "J"; "electronvolt"; "eV"; "Hz"; "/m";
                             "/cm"; "wavenumbers"; "kayser"]%string)
    /\ convert_au (VFloat 1.0) "energy" (Some "furlong"%string) w
       = (Raise (ValueError
                   ("unrecognised energy units : furlong " ++ String newline
                    "supported units: ['SI', 'joule', 'J', 'electronvolt', 'eV', 'Hz', '/m', '/cm', 'wavenumbers', 'kayser']")),
          w).
Proof.
  intros Hd Hs Hc.
  exists (decorator dimension nargs data), (unrecognised dimension units data).
  split; [now apply atomic_units_registered|].
  split; [unfold decorator, wrapper; now rewrite Hs, Hc|].
  split.
  { intros x. unfold convert_au. rewrite (atomic_units_registered _ 1%Z _ Hd).
    unfold mbind, ret, decorator, wrapper. now rewrite Hs, Hc. }
  unfold unrecognised.
  split; [apply includes_here|].
  split.
  { rewrite <- (append_assoc dimension), <- (append_assoc "unrecognised ").
    apply includes_here. }
  split; [do 6 apply includes_after; apply includes_last|].
  split.
  { intros a f Ha. do 6 apply includes_after.
    table_rows Hd Ha; apply includesb_sound; reflexivity. }
  split; [eexists; split; reflexivity|].
  reflexivity.
Qed.

(** *** Aliases *)

Lemma scale_items_same_factor (data : dict float) (a b : string) (nargs : Z) :
  getitem data a = getitem data b ->
  forall (items : list value) (i : Z),
    scale_items data a nargs i items = scale_items data b nargs i items.
Proof.
  intros H. induction items as [|r items IH]; intros i; [reflexivity|].
  cbn [scale_items]. now rewrite H, IH.
Qed.

(** Two units with the same entry are the same to a decorated function. *)
Lemma wrapper_same_factor (dimension : string) (nargs : Z) (data : dict float)
      (a b : string) (f : float) (func : callable) (args : list value)
      (kwargs : dict value) (w : World) :
  no_conversion (Some a) = false ->
  no_conversion (Some b) = false ->
  dict_get data a = Some f ->
  dict_get data b = Some f ->
  wrapper dimension nargs data func args (Some a) kwargs w
  = wrapper dimension nargs data func args (Some b) kwargs w.
Proof.
  intros Ha Hb Hfa Hfb. unfold wrapper.
  rewrite Ha, Hb, (dict_get_contains _ _ _ Hfa), (dict_get_contains _ _ _ Hfb).
  unfold mbind. destruct (func args kwargs w) as [[r|ex] w']; [|reflexivity].
  assert (Hg : getitem data a = getitem data b).
  { now rewrite (dict_get_getitem _ _ _ Hfa), (dict_get_getitem _ _ _ Hfb). }
  destruct r; rewrite ?Hg; try reflexivity.
  now rewrite (scale_items_same_factor data a b nargs Hg).
Qed.

(** C6: the aliases of one chained assignment have the same factor, the
    very same double, so a decorated function, and [convert_au] with it,
    gives the same result under any two of them. *)
Theorem C6_aliases_share_one_factor
        (dimension : string) (group : list string) (a b : string) :
  In (dimension, group) alias_groups ->
  In a group ->
  In b group ->
  exists f : float,
    registered dimension a f
    /\ registered dimension b f
    /\ forall (x : value) (w : World),
         convert_au x dimension (Some a) w = convert_au x dimension (Some b) w.
Proof.
  intros Hg Ha Hb.
  assert (exists (data : dict float) (f : float),
             dict_get conversion_data dimension = Some data
             /\ dict_get data a = Some f /\ dict_get data b = Some f)
    as (data & f & Hd & Hfa & Hfb).
  { unfold alias_groups in Hg. cbn [In] in Hg.
    repeat match goal with
           | H : _ \/ _ |- _ => destruct H
           | H : False |- _ => destruct H
           | H : (_, _) = (_, _) |- _ => inversion H; clear H; subst; cbn [In] in *
           end;
      subst; (eexists; eexists; split; [reflexivity|split; reflexivity]). }
  exists f. split; [apply registered_data; eauto|]. split; [apply registered_data; eauto|].
  intros x w. unfold convert_au. rewrite (atomic_units_registered _ 1%Z _ Hd).
  unfold mbind, ret, decorator.
  apply wrapper_same_factor with (f := f); eauto using registered_converts.
Qed.

(** *** Unknown dimensions *)

(** C7, as the code has it: [atomic_units] looks the dimension up when it
    is called, so an unregistered dimension raises KeyError there, before
    any function is decorated or called; [convert_au] and [revert_au]
    raise it whatever the units are. *)
Theorem C7_unregistered_dimension_raises_KeyError_at_wrap_time
        (dimension : string) (nargs : Z) :
  contains conversion_data dimension = false ->
  atomic_units dimension nargs = Raise (KeyError dimension)
  /\ forall (v : value) (units : option string) (w : World),
       convert_au v dimension units w = (Raise (KeyError dimension), w)
       /\ revert_au v dimension units w = (Raise (KeyError dimension), w).
Proof.
  intros H.
  assert (Ha : forall n, atomic_units dimension n = Raise (KeyError dimension)).
  { intros n. unfold atomic_units, getitem. unfold contains in H.
    destruct (dict_get conversion_data dimension); [discriminate|reflexivity]. }
  split; [apply Ha|].
  intros v units w. unfold convert_au, revert_au, mbind, ret. now rewrite Ha.
Qed.

(** *** The factors as numbers *)

(** With a faithful [pow], [En_h] is one of nine doubles: the cases. *)
Ltac pow_cases Hpow :=
  destruct (Hpow alpha) as [Ha|[Ha|Ha]];
  destruct (Hpow c) as [Hc|[Hc|Hc]];
  unfold En_h; rewrite ?Ha, ?Hc.

Lemma factor_facts (dimension units : string) (f : float) :
  pow_faithful ->
  registered dimension units f ->
  (f * 1 = f)%float
  /\ (0 <? f)%float = true
  /\ (f <? infinity)%float = true
  /\ (f =? 0)%float = false
  /\ normal f = true.
Proof.
  intros Hpow Hr. apply registered_data in Hr as (data & Hd & Hu).
  table_rows Hd Hu; pow_cases Hpow; vm_compute; repeat split.
Qed.

Lemma factor_value_positive (dimension units : string) (f : float) :
  pow_faithful ->
  registered dimension units f ->
  (0 < F2Q f)%Q.
Proof.
  intros Hpow Hr. apply registered_data in Hr as (data & Hd & Hu).
  table_rows Hd Hu; pow_cases Hpow; vm_compute; reflexivity.
Qed.

(** [convert_au] on a value that is not a tuple: one product. *)
Lemma convert_au_registered (dimension units : string) (data : dict float) (f : float)
      (v : value) (w : World) :
  dict_get conversion_data dimension = Some data ->
  dict_get data units = Some f ->
  is_tuple v = false ->
  convert_au v dimension (Some units) w = (float_mul f v, w).
Proof.
  intros Hd Hu Ht. unfold convert_au. rewrite (atomic_units_registered _ 1%Z _ Hd).
  unfold mbind at 1. unfold ret at 1. unfold decorator.
  rewrite (wrapper_converts dimension units data f 1%Z (lambda v) [] [] w w v
             (registered_converts _ _ _ _ Hd Hu) Hu eq_refl).
  destruct v; try reflexivity. discriminate.
Qed.

(** [revert_au]: the quotient by the factor, once the factor is known to be
    a number other than zero. *)
Lemma revert_au_registered (dimension units : string) (data : dict float) (f : float)
      (v : value) (w : World) :
  dict_get conversion_data dimension = Some data ->
  dict_get data units = Some f ->
  (f * 1 = f)%float ->
  (f =? 0)%float = false ->
  revert_au v dimension (Some units) w = (x <- as_double v ;; Ok (VFloat (x / f)), w).
Proof.
  intros Hd Hu H1 H0. unfold revert_au. rewrite (atomic_units_registered _ 1%Z _ Hd).
  unfold mbind at 1. unfold ret at 1. unfold decorator. unfold mbind.
  rewrite (wrapper_converts dimension units data f 1%Z (lambda (VInt 1)) [] [] w w (VInt 1)
             (registered_converts _ _ _ _ Hd Hu) Hu eq_refl).
  change (float_mul f (VInt 1)) with (Ok (VFloat (f * 1))). rewrite H1.
  unfold ret, truediv.
  destruct v; cbn [is_int as_double bind]; rewrite ?H0; reflexivity.
Qed.

(** C9: with a faithful [pow], every factor of the table is a positive
    finite double, so [revert_au] divides by a number that is not zero: for
    every value it returns the quotient, or what the conversion of the value
    to a double raises, never ZeroDivisionError. *)
Theorem C9_factors_are_positive
        (dimension units : string) (f : float) :
  pow_faithful ->
  registered dimension units f ->
  (0 <? f)%float = true
  /\ (f <? infinity)%float = true
  /\ (0 < F2Q f)%Q
  /\ forall (v : value) (w : World),
       revert_au v dimension (Some units) w
       = (x <- as_double v ;; Ok (VFloat (x / f)), w).
Proof.
  intros Hpow Hr.
  destruct (factor_facts _ _ _ Hpow Hr) as (H1 & Hpos & Hfin & H0 & _).
  split; [exact Hpos|]. split; [exact Hfin|].
  split; [exact (factor_value_positive _ _ _ Hpow Hr)|].
  apply registered_data in Hr as (data & Hd & Hu).
  intros v w. now apply revert_au_registered with (data := data).
Qed.

(** C5: for a registered pair with factor [f], [convert_au] returns the
    product of the value and [f] (the value itself under "au",
    "atomic_units" or no units) and, with a faithful [pow], [revert_au]
    returns the quotient of the value by [f]; in exact arithmetic the
    quotient by [f] undoes the product. *)
Theorem C5_convert_multiplies_revert_divides
        (dimension units : string) (f : float) :
  pow_faithful ->
  registered dimension units f ->
  forall (x : float) (w : World),
    convert_au (VFloat x) dimension (Some units) w = (Ok (VFloat (x * f)), w)
    /\ revert_au (VFloat x) dimension (Some units) w = (Ok (VFloat (x / f)), w)
    /\ convert_au (VFloat x) dimension None w = (Ok (VFloat x), w)
    /\ convert_au (VFloat x) dimension (Some "au"%string) w = (Ok (VFloat x), w)
    /\ convert_au (VFloat x) dimension (Some "atomic_units"%string) w = (Ok (VFloat x), w)
    /\ forall q : Q, (q * F2Q f / F2Q f == q)%Q.
Proof.
  intros Hpow Hr x w.
  destruct (factor_facts _ _ _ Hpow Hr) as (H1 & _ & _ & H0 & _).
  pose proof (factor_value_positive _ _ _ Hpow Hr) as Hq.
  apply registered_data in Hr as (data & Hd & Hu).
  split.
  { rewrite (convert_au_registered _ _ _ _ (VFloat x) w Hd Hu eq_refl).
    unfold float_mul. cbn. now rewrite float_mul_comm. }
  split; [now rewrite (revert_au_registered _ _ data f _ _ Hd Hu H1 H0)|].
  repeat split; try (now apply convert_au_no_conversion with (data := data)).
  intros q. apply Qdiv_mult_l. intros E. rewrite E in Hq. discriminate.
Qed.

(** *** The conversions of one atomic unit *)

Lemma convert_au_one (dimension units : string) (f : float) (w : World) :
  registered dimension units f ->
  (f * 1 = f)%float ->
  convert_au (VFloat 1.0) dimension (Some units) w = (Ok (VFloat f), w).
Proof.
  intros Hr H1. apply registered_data in Hr as (data & Hd & Hu).
  rewrite (convert_au_registered _ _ _ _ (VFloat 1.0) w Hd Hu eq_refl).
  unfold float_mul. cbn [as_double bind]. now rewrite H1.
Qed.

(** C8, as the code has it: with a faithful [pow], one atomic unit of
    energy is [En_h / e] eV, a double whose decimal expansion starts
    27.2113862459355 (the tabulated 27.211386245988 only up to 11 digits),
    and [En_h / h] Hz; one atomic unit of length is [a0 * 100.0] cm, within
    one part in 10^9 of 5.29177210903e-9. *)
Theorem C8_one_atomic_unit_in_eV_Hz_cm :
  pow_faithful ->
  forall w : World,
    convert_au (VFloat 1.0) "energy" (Some "eV"%string) w = (Ok (VFloat (En_h / e)), w)
    /\ (27.2113862459355 <= F2Q (En_h / e))%Q
    /\ (F2Q (En_h / e) < 27.2113862459356)%Q
    /\ convert_au (VFloat 1.0) "energy" (Some "Hz"%string) w = (Ok (VFloat (En_h / h)), w)
    /\ convert_au (VFloat 1.0) "length" (Some "cm"%string) w = (Ok (VFloat (a0 * 100.0)), w)
    /\ (Qabs (F2Q (a0 * 100.0) - 5.29177210903e-9) <= 1e-9 * 5.29177210903e-9)%Q.
Proof.
  intros Hpow w.
  assert (HeV : registered "energy" "eV" (En_h / e)) by reflexivity.
  assert (HHz : registered "energy" "Hz" (En_h / h)) by reflexivity.
  assert (Hcm : registered "length" "cm" (a0 * 100.0)) by reflexivity.
  destruct (factor_facts _ _ _ Hpow HeV) as (H1eV & _).
  destruct (factor_facts _ _ _ Hpow HHz) as (H1Hz & _).
  destruct (factor_facts _ _ _ Hpow Hcm) as (H1cm & _).
  split; [now apply convert_au_one|].
  split; [pow_cases Hpow; apply Qle_bool_iff; vm_compute; reflexivity|].
  split; [pow_cases Hpow; vm_compute; reflexivity|].
  split; [now apply convert_au_one|].
  split; [now apply convert_au_one|].
  apply Qle_bool_iff. vm_compute. reflexivity.
Qed.

(** *** Rounding: what one product and one quotient lose *)

#[local] Close Scope float_scope.
#[local] Open Scope Q_scope.

Lemma inject_Z_xO (p : positive) : inject_Z (Zpos p~0) == 2 * inject_Z (Zpos p).
Proof. rewrite Pos2Z.inj_xO, inject_Z_mult. reflexivity. Qed.

Lemma inject_Z_xI (p : positive) : inject_Z (Zpos p~1) == 2 * inject_Z (Zpos p) + 1.
Proof. rewrite Pos2Z.inj_xI, inject_Z_plus, inject_Z_mult. reflexivity. Qed.

(** One shift to the right halves the value a record locates. *)
Lemma shr_1_locates (R : shr_record) (v : Q) :
  locates R v -> locates (shr_1 R) (v * (1 # 2)).
Proof.
  destruct R as [m r s]. intros [Hm H]. cbn [shr_m shr_r shr_s] in Hm, H.
  assert (E0 : inject_Z 0 == 0) by reflexivity.
  assert (E1 : inject_Z 1 == 1) by reflexivity.
  destruct m as [|[p|p|]|p]; [| | | |lia];
    try pose proof (inject_Z_xI p) as EI; try pose proof (inject_Z_xO p) as EO;
    destruct r, s; cbn [shr_1 orb]; (split; [cbn [shr_m]; lia|]);
    cbn [shr_m shr_r shr_s]; lra.
Qed.

(** [locates] respects the equality of rationals. *)
Lemma locates_proper (R : shr_record) (v v' : Q) :
  v == v' -> locates R v -> locates R v'.
Proof.
  intros E [Hm H]. split; [exact Hm|].
  destruct (shr_r R), (shr_s R); lra.
Qed.

Lemma pow2_pos (k : Z) : 0 < 2 ^ k.
Proof. apply Qpower_0_lt. reflexivity. Qed.

Lemma pow2_add (a b : Z) : 2 ^ (a + b) == 2 ^ a * 2 ^ b.
Proof. apply Qpower_plus. discriminate. Qed.

Lemma pow2_succ (a : Z) : 2 ^ (a + 1) == 2 * 2 ^ a.
Proof. rewrite pow2_add. change (2 ^ 1) with 2. ring. Qed.

Lemma pow2_pred (a : Z) : 2 ^ (a - 1) == (1 # 2) * 2 ^ a.
Proof.
  replace (a - 1)%Z with (a + (-1))%Z by lia.
  rewrite pow2_add. change (2 ^ (-1)) with (1 # 2). ring.
Qed.

(** What every step preserves, [iter_pos] preserves. *)
Lemma iter_pos_invariant {A : Type} (f : A -> A) (Inv : Z -> A -> Prop) :
  (forall k x, Inv k x -> Inv (k + 1)%Z (f x)) ->
  forall (p : positive) (k : Z) (x : A),
    Inv k x -> Inv (k + Zpos p)%Z (SpecFloat.iter_pos f p x).
Proof.
  intros Hstep. induction p as [p IH|p IH|]; intros k x H; cbn [SpecFloat.iter_pos].
  - replace (k + Zpos p~1)%Z with (k + 1 + Zpos p + Zpos p)%Z by lia.
    apply IH, IH, Hstep, H.
  - replace (k + Zpos p~0)%Z with (k + Zpos p + Zpos p)%Z by lia.
    apply IH, IH, H.
  - apply Hstep, H.
Qed.

Lemma shr_1_represents (R : shr_record) (ex : Z) (t : Q) :
  represents R ex t -> represents (shr_1 R) (ex + 1) t.
Proof.
  unfold represents. intros H. apply shr_1_locates in H.
  apply (locates_proper _ (t * 2 ^ (- ex) * (1 # 2))); [|exact H].
  replace (- (ex + 1))%Z with (- ex - 1)%Z by lia. rewrite pow2_pred. ring.
Qed.

(** [shr] keeps the value and moves the exponent by the shift. *)
Lemma shr_represents (R : shr_record) (ex n : Z) (t : Q) :
  represents R ex t ->
  represents (fst (shr R ex n)) (snd (shr R ex n)) t
  /\ snd (shr R ex n) = (ex + Z.max 0 n)%Z.
Proof.
  intros H. destruct n as [|p|p]; cbn [shr fst snd].
  - split; [exact H|lia].
  - split; [|lia].
    assert (Hstep : forall (k : Z) (x : shr_record),
               represents x (ex + k) t -> represents (shr_1 x) (ex + (k + 1)) t).
    { intros k x Hx. replace (ex + (k + 1))%Z with (ex + k + 1)%Z by lia.
      now apply shr_1_represents. }
    assert (H0 : represents R (ex + 0) t) by now rewrite Z.add_0_r.
    exact (iter_pos_invariant shr_1 (fun k R' => represents R' (ex + k) t) Hstep p 0%Z R H0).
  - split; [exact H|lia].
Qed.

Lemma locates_bounds (R : shr_record) (v : Q) :
  locates R v -> inject_Z (shr_m R) <= v /\ v < inject_Z (shr_m R) + 1.
Proof. intros [_ H]. destruct (shr_r R), (shr_s R); lra. Qed.

Lemma shr_record_of_loc_m (m : Z) (l : location) : shr_m (shr_record_of_loc m l) = m.
Proof. destruct l as [|[| |]]; reflexivity. Qed.

(** The rounded mantissa is within one half of the value. *)
Lemma round_nearest_even_near (R : shr_record) (v : Q) :
  locates R v ->
  let m := round_nearest_even (shr_m R) (loc_of_shr_record R) in
  (0 <= m)%Z
  /\ (m <= shr_m R + 1)%Z
  /\ Qabs (inject_Z m - v) <= 1 # 2.
Proof.
  destruct R as [m r s]. intros [Hm H]. cbn [shr_m shr_r shr_s] in Hm, H.
  cbn [shr_m loc_of_shr_record].
  assert (E : inject_Z (m + 1) == inject_Z m + 1) by (rewrite inject_Z_plus; reflexivity).
  destruct r, s; cbn [round_nearest_even]; try destruct (Z.even m);
    (split; [lia|split; [lia|]]); apply Qabs_Qle_condition; lra.
Qed.

(** The number of binary digits of a mantissa. *)
Lemma digits2_pos_bounds (p : positive) :
  (Zpos p < 2 ^ Zpos (digits2_pos p) /\ 2 ^ Zpos (digits2_pos p) <= 2 * Zpos p)%Z.
Proof.
  induction p as [p [IH1 IH2]|p [IH1 IH2]|]; cbn [digits2_pos];
    rewrite ?Pos2Z.inj_succ, ?Z.pow_succ_r by lia; lia.
Qed.

Lemma Zdigits2_gt (m : Z) : (0 <= m -> m < 2 ^ Zdigits2 m)%Z.
Proof.
  destruct m as [|p|p]; cbn [Zdigits2]; intros H; [reflexivity| |lia].
  apply digits2_pos_bounds.
Qed.

Lemma Zdigits2_nonneg (m : Z) : (0 <= Zdigits2 m)%Z.
Proof. destruct m; cbn; lia. Qed.

Lemma Zdigits2_le (m k : Z) : (0 <= m -> 0 <= k -> m < 2 ^ k -> Zdigits2 m <= k)%Z.
Proof.
  destruct m as [|p|p]; cbn [Zdigits2]; intros Hm Hk H; [exact Hk| |lia].
  destruct (digits2_pos_bounds p) as [_ H2].
  destruct (Z.le_gt_cases (Zpos (digits2_pos p)) k) as [|Hgt]; [assumption|].
  assert (2 ^ (k + 1) <= 2 ^ Zpos (digits2_pos p))%Z by (apply Z.pow_le_mono_r; lia).
  rewrite Z.pow_add_r in H0 by lia. change (2 ^ 1)%Z with 2%Z in H0. lia.
Qed.

Lemma inject_Z_pow2 (k : Z) : (0 <= k)%Z -> inject_Z (2 ^ k) == 2 ^ k.
Proof. intros H. now rewrite Zpower_Qpower. Qed.

Lemma pow2_le (a b : Z) : (a <= b)%Z -> 2 ^ a <= 2 ^ b.
Proof. intros H. apply Qpower_le_compat_l; [exact H|discriminate]. Qed.

Lemma fexp_eq (x : Z) : fexp prec emax x = Z.max (x - 53) (-1074).
Proof. reflexivity. Qed.

(** The first shift of [binary_round_aux]: the record still locates the
    value, and its mantissa fits the precision. *)
Lemma shr_fexp_represents (m ex : Z) (l : location) (t : Q) :
  represents (shr_record_of_loc m l) ex t ->
  represents (fst (shr_fexp prec emax m ex l)) (snd (shr_fexp prec emax m ex l)) t
  /\ (-1074 <= snd (shr_fexp prec emax m ex l))%Z
  /\ (shr_m (fst (shr_fexp prec emax m ex l)) < 2 ^ 53)%Z.
Proof.
  intros H. unfold shr_fexp. rewrite fexp_eq.
  set (D := Zdigits2 m).
  destruct (shr_represents _ ex (Z.max (D + ex - 53) (-1074) - ex) t H) as [Hr He].
  set (S1 := shr (shr_record_of_loc m l) ex (Z.max (D + ex - 53) (-1074) - ex)) in *.
  split; [exact Hr|]. split; [lia|].
  assert (Hm : (0 <= m)%Z).
  { destruct H as [Hm _]. now rewrite shr_record_of_loc_m in Hm. }
  pose proof (Zdigits2_gt m Hm) as HD. fold D in HD.
  pose proof (Zdigits2_nonneg m) as HD0. fold D in HD0.
  apply locates_bounds in H. rewrite shr_record_of_loc_m in H. destruct H as [_ Hup].
  apply locates_bounds in Hr. destruct Hr as [Hlo _].
  assert (HmD : inject_Z m + 1 <= 2 ^ D).
  { rewrite <- inject_Z_pow2 by exact HD0.
    change 1 with (inject_Z 1). rewrite <- inject_Z_plus, <- Zle_Qle. lia. }
  assert (Hsplit : t * 2 ^ (- snd S1) == t * 2 ^ (- ex) * 2 ^ (ex - snd S1)).
  { replace (- snd S1)%Z with (- ex + (ex - snd S1))%Z by lia. rewrite pow2_add. ring. }
  assert (Hlt : t * 2 ^ (- ex) * 2 ^ (ex - snd S1) < 2 ^ D * 2 ^ (ex - snd S1)).
  { apply Qmult_lt_compat_r; [apply pow2_pos|lra]. }
  rewrite <- pow2_add in Hlt.
  assert (Hle : 2 ^ (D + (ex - snd S1)) <= 2 ^ 53) by (apply pow2_le; lia).
  rewrite Zlt_Qlt, inject_Z_pow2 by lia. lra.
Qed.

(** The second shift of [binary_round_aux] loses nothing: either it does
    not shift, or the rounded mantissa is [2 ^ 53] and one zero goes. *)
Lemma shr_fexp_exact (m ex : Z) :
  (0 <= m <= 2 ^ 53)%Z ->
  (-1074 <= ex)%Z ->
  shr_fexp prec emax m ex loc_Exact = (Build_shr_record m false false, ex)
  \/ (m = 2 ^ 53 /\ shr_fexp prec emax m ex loc_Exact
                    = (Build_shr_record (2 ^ 52) false false, ex + 1))%Z.
Proof.
  intros Hm He. unfold shr_fexp. rewrite fexp_eq. cbn [shr_record_of_loc].
  destruct (Z.eq_dec m (2 ^ 53)) as [->|Hne].
  - right. split; [reflexivity|].
    change (Zdigits2 (2 ^ 53)) with 54%Z.
    replace (Z.max (54 + ex - 53) (-1074) - ex)%Z with 1%Z by lia.
    reflexivity.
  - left.
    assert (HD : (Zdigits2 m <= 53)%Z) by (apply Zdigits2_le; lia).
    destruct (Z.max (Zdigits2 m + ex - 53) (-1074) - ex)%Z as [|p|p] eqn:E;
      [reflexivity|lia|reflexivity].
Qed.

(** [binary_round_aux] rounds to nearest: a finite result is within half a
    unit of its last place of the value the record locates. *)
Lemma binary_round_aux_near (s : bool) (m ex : Z) (l : location) (t : Q)
      (s' : bool) (mf : positive) (ef : Z) :
  represents (shr_record_of_loc m l) ex t ->
  binary_round_aux prec emax s m ex l = S754_finite s' mf ef ->
  s' = s /\ Qabs (inject_Z (Zpos mf) * 2 ^ ef - t) <= (1 # 2) * 2 ^ ef.
Proof.
  intros H. unfold binary_round_aux.
  destruct (shr_fexp_represents m ex l t H) as (Hr & He1 & Hm1).
  destruct (shr_fexp prec emax m ex l) as [R1 e1]. cbn [fst snd] in Hr, He1, Hm1.
  destruct (round_nearest_even_near R1 _ Hr) as (Hm2 & Hm2' & Hnear).
  set (m2 := round_nearest_even (shr_m R1) (loc_of_shr_record R1)) in *.
  assert (Hscale : forall k : Z,
             Qabs (inject_Z m2 * 2 ^ k - t * 2 ^ (- e1) * 2 ^ k) <= (1 # 2) * 2 ^ k).
  { intros k.
    setoid_replace (inject_Z m2 * 2 ^ k - t * 2 ^ (- e1) * 2 ^ k)
      with ((inject_Z m2 - t * 2 ^ (- e1)) * 2 ^ k) by ring.
    rewrite Qabs_Qmult, (Qabs_pos (2 ^ k)) by (apply Qlt_le_weak, pow2_pos).
    apply Qmult_le_compat_r; [exact Hnear|apply Qlt_le_weak, pow2_pos]. }
  assert (Ht : t * 2 ^ (- e1) * 2 ^ e1 == t).
  { rewrite <- Qmult_assoc, <- pow2_add. replace (- e1 + e1)%Z with 0%Z by lia.
    change (2 ^ 0) with 1. ring. }
  destruct (shr_fexp_exact m2 e1) as [E|[E2 E]]; [lia|lia| |]; rewrite E; cbn [shr_m].
  - destruct m2 as [|p|p]; [discriminate| |discriminate].
    destruct (e1 <=? emax - prec)%Z; [|discriminate].
    intros Hf. inversion Hf; subst s' mf ef. split; [reflexivity|].
    specialize (Hscale e1). now rewrite Ht in Hscale.
  - change (2 ^ 52)%Z with (Zpos (2 ^ 52)).
    destruct (e1 + 1 <=? emax - prec)%Z; [|discriminate].
    intros Hf. inversion Hf; subst s' mf ef. split; [reflexivity|].
    specialize (Hscale e1). rewrite Ht, E2 in Hscale.
    rewrite pow2_succ.
    setoid_replace (inject_Z (Zpos (2 ^ 52)) * (2 * 2 ^ e1))
      with (inject_Z (2 ^ 53) * 2 ^ e1)
      by (change (inject_Z (2 ^ 53)) with (inject_Z (Zpos (2 ^ 52)) * 2); ring).
    pose proof (pow2_pos e1). lra.
Qed.

Lemma Qabs_SF2Q (s : bool) (m : positive) (ex : Z) :
  Qabs (SF2Q (S754_finite s m ex)) == inject_Z (Zpos m) * 2 ^ ex.
Proof.
  assert (0 <= inject_Z (Zpos m) * 2 ^ ex).
  { apply Qmult_le_0_compat; [now rewrite <- (Zle_Qle 0)|apply Qlt_le_weak, pow2_pos]. }
  cbn [SF2Q]. destruct s; [rewrite Qabs_opp|]; now apply Qabs_pos.
Qed.

(** The product of two finite doubles, when it has a finite result. *)
Lemma SFmul_near (x y : spec_float) (s : bool) (m : positive) (ex : Z) :
  SFmul prec emax x y = S754_finite s m ex ->
  Qabs (SF2Q (S754_finite s m ex) - SF2Q x * SF2Q y) <= (1 # 2) * 2 ^ ex.
Proof.
  destruct x as [sx|sx| |sx mx ex1], y as [sy|sy| |sy my ey]; cbn [SFmul];
    try discriminate.
  intros H.
  assert (Hrep : represents (shr_record_of_loc (Zpos (mx * my)) loc_Exact) (ex1 + ey)
                   (inject_Z (Zpos mx) * 2 ^ ex1 * (inject_Z (Zpos my) * 2 ^ ey))).
  { unfold represents, locates. cbn [shr_record_of_loc shr_m shr_r shr_s].
    split; [lia|].
    replace (- (ex1 + ey))%Z with (- ex1 + - ey)%Z by lia.
    rewrite pow2_add, Pos2Z.inj_mul, inject_Z_mult.
    assert (E1 : 2 ^ ex1 * 2 ^ (- ex1) == 1).
    { rewrite <- pow2_add. now replace (ex1 + - ex1)%Z with 0%Z by lia. }
    assert (E2 : 2 ^ ey * 2 ^ (- ey) == 1).
    { rewrite <- pow2_add. now replace (ey + - ey)%Z with 0%Z by lia. }
    setoid_replace (inject_Z (Zpos mx) * 2 ^ ex1 * (inject_Z (Zpos my) * 2 ^ ey)
                    * (2 ^ (- ex1) * 2 ^ (- ey)))
      with (inject_Z (Zpos mx) * inject_Z (Zpos my)
            * (2 ^ ex1 * 2 ^ (- ex1)) * (2 ^ ey * 2 ^ (- ey))) by ring.
    rewrite E1, E2. ring. }
  destruct (binary_round_aux_near _ _ _ _ _ _ _ _ Hrep H) as [Hs Hnear].
  subst s. cbn [SF2Q].
  apply Qabs_Qle_condition in Hnear. apply Qabs_Qle_condition.
  destruct sx, sy; cbn [xorb]; lra.
Qed.

(** A normal double has a mantissa of 53 bits. *)
Lemma normal_finite (x : float) :
  normal x = true ->
  exists (s : bool) (m : positive) (ex : Z),
    Prim2SF x = S754_finite s m ex /\ (2 ^ 52 <= Zpos m)%Z.
Proof.
  unfold normal. rewrite classify_spec. unfold SF64classify, SFclassify.
  destruct (Prim2SF x) as [s|s| |s m ex];
    try discriminate; try (destruct s; discriminate).
  intros H. exists s, m, ex. split; [reflexivity|].
  assert (E : Zpos (digits2_pos m) = prec).
  { destruct s; destruct (Z.eqb_spec (Zpos (digits2_pos m)) prec);
      try assumption; discriminate. }
  destruct (digits2_pos_bounds m) as [_ H2]. rewrite E in H2.
  change (2 ^ prec)%Z with (2 * 2 ^ 52)%Z in H2. lia.
Qed.

(** Half a unit in the last place of a normal double is at most [2 ^ -53]
    of it. *)
Lemma half_ulp_normal (s : bool) (m : positive) (ex : Z) :
  (2 ^ 52 <= Zpos m)%Z ->
  (1 # 2) * 2 ^ ex <= 2 ^ (-53) * Qabs (SF2Q (S754_finite s m ex)).
Proof.
  intros H. rewrite Qabs_SF2Q.
  rewrite Zle_Qle in H. change (inject_Z (2 ^ 52)) with (4503599627370496 # 1) in H.
  change (2 ^ (-53)) with (1 # 9007199254740992).
  pose proof (pow2_pos ex) as Hp.
  setoid_replace ((1 # 2) * 2 ^ ex)
    with ((1 # 9007199254740992) * ((4503599627370496 # 1) * 2 ^ ex)) by ring.
  apply Qmult_le_l; [reflexivity|].
  apply Qmult_le_compat_r; [exact H|now apply Qlt_le_weak].
Qed.

(** A product that is a normal double is within [2 ^ -53] of the exact
    product, relative to itself. *)
Lemma float_mul_error (a b : float) :
  normal (a * b) = true ->
  Qabs (F2Q (a * b) - F2Q a * F2Q b) <= 2 ^ (-53) * Qabs (F2Q (a * b)).
Proof.
  intros H. destruct (normal_finite _ H) as (s & m & ex & E & Hm).
  unfold F2Q. pose proof (mul_spec a b) as Hspec. rewrite E in Hspec.
  rewrite E. symmetry in Hspec.
  eapply Qle_trans; [exact (SFmul_near _ _ _ _ _ Hspec)|].
  now apply half_ulp_normal.
Qed.

(** The remainder of a division says where the quotient lies. *)
Lemma new_location_locates (nb k q : Z) :
  (0 < nb)%Z -> (0 <= k < nb)%Z -> (0 <= q)%Z ->
  locates (shr_record_of_loc q (new_location nb k))
          (inject_Z q + inject_Z k / inject_Z nb).
Proof.
  intros Hnb Hk Hq.
  assert (HN : 0 < inject_Z nb) by (now rewrite <- (Zlt_Qlt 0)).
  assert (HK : 0 <= inject_Z k) by (now rewrite <- (Zle_Qle 0)).
  assert (Hlt1 : inject_Z k / inject_Z nb < 1).
  { apply Qlt_shift_div_r; [exact HN|]. rewrite Qmult_1_l, <- Zlt_Qlt. lia. }
  assert (Hhalf : forall c : comparison,
             (2 * k ?= nb)%Z = c ->
             match c with
             | Lt => inject_Z k / inject_Z nb < 1 # 2
             | Eq => inject_Z k / inject_Z nb == 1 # 2
             | Gt => 1 # 2 < inject_Z k / inject_Z nb
             end).
  { intros c Hc.
    assert (E2 : inject_Z (2 * k) == 2 * inject_Z k) by (now rewrite inject_Z_mult).
    destruct c.
    - apply Z.compare_eq in Hc.
      assert (E : inject_Z nb == 2 * inject_Z k) by (now rewrite <- Hc).
      rewrite E. field. intros Hz. lra.
    - rewrite Z.compare_lt_iff, Zlt_Qlt in Hc.
      apply Qlt_shift_div_r; [exact HN|]. lra.
    - rewrite Z.compare_gt_iff, Zlt_Qlt in Hc.
      apply Qlt_shift_div_l; [exact HN|]. lra. }
  assert (Hpos : k <> 0%Z -> 0 < inject_Z k / inject_Z nb).
  { intros Hk0. apply Qlt_shift_div_l; [exact HN|].
    rewrite Qmult_0_l, <- (Zlt_Qlt 0). lia. }
  assert (Hzero : k = 0%Z -> inject_Z k / inject_Z nb == 0).
  { intros ->. unfold Qdiv. ring. }
  unfold new_location, new_location_even, new_location_odd.
  destruct (Z.even nb) eqn:Ev; destruct (Z.eqb_spec k 0) as [Hk0|Hk0].
  - split; [rewrite shr_record_of_loc_m; lia|]. cbn. rewrite (Hzero Hk0). ring.
  - specialize (Hpos Hk0). pose proof (Hhalf _ eq_refl) as Hh.
    split; [rewrite shr_record_of_loc_m; lia|].
    destruct (2 * k ?= nb)%Z; cbn; lra.
  - split; [rewrite shr_record_of_loc_m; lia|]. cbn. rewrite (Hzero Hk0). ring.
  - specialize (Hpos Hk0). pose proof (Hhalf _ eq_refl) as Hh.
    assert (Hodd : (2 * k <> nb)%Z).
    { intros E. rewrite <- E, Z.even_mul in Ev. discriminate. }
    split; [rewrite shr_record_of_loc_m; lia|].
    destruct (2 * k + 1 ?= nb)%Z eqn:C1; destruct (2 * k ?= nb)%Z eqn:C2;
      try (apply Z.compare_eq in C1); try (apply Z.compare_eq in C2);
      try rewrite Z.compare_lt_iff in C1; try rewrite Z.compare_gt_iff in C1;
      try rewrite Z.compare_lt_iff in C2; try rewrite Z.compare_gt_iff in C2;
      try lia; cbn; lra.
Qed.

Lemma inject_Z_pos_lt (p : positive) : 0 < inject_Z (Zpos p).
Proof. now rewrite <- (Zlt_Qlt 0). Qed.

(** The integer division at the heart of [SFdiv] locates the quotient of
    the two magnitudes. *)
Lemma SFdiv_core_represents (mx my : positive) (ex1 ey : Z) :
  represents
    (shr_record_of_loc (fst (fst (SFdiv_core_binary prec emax (Zpos mx) ex1 (Zpos my) ey)))
                       (snd (SFdiv_core_binary prec emax (Zpos mx) ex1 (Zpos my) ey)))
    (snd (fst (SFdiv_core_binary prec emax (Zpos mx) ex1 (Zpos my) ey)))
    (inject_Z (Zpos mx) * 2 ^ ex1 / (inject_Z (Zpos my) * 2 ^ ey)).
Proof.
  unfold SFdiv_core_binary.
  set (e' := Z.min (fexp prec emax (Zdigits2 (Zpos mx) + ex1 - (Zdigits2 (Zpos my) + ey)))
                   (ex1 - ey)).
  set (s := (ex1 - ey - e')%Z).
  assert (Hs : (0 <= s)%Z) by (unfold s, e'; lia).
  set (m' := match s with
             | Zpos _ => Z.shiftl (Zpos mx) s
             | Z0 => Zpos mx
             | Zneg _ => 0%Z
             end).
  assert (Hm' : m' = (Zpos mx * 2 ^ s)%Z).
  { unfold m'. destruct s as [|p|p] eqn:Es.
    - rewrite Z.pow_0_r. lia.
    - apply Z.shiftl_mul_pow2. lia.
    - lia. }
  pose proof (Z_div_mod m' (Zpos my) eq_refl) as Hdm.
  destruct (Z.div_eucl m' (Zpos my)) as [q r]. destruct Hdm as [Hdiv Hr].
  cbn [fst snd].
  assert (Hq : (0 <= q)%Z) by nia.
  unfold represents.
  apply (locates_proper _ (inject_Z q + inject_Z r / inject_Z (Zpos my)));
    [|apply new_location_locates; lia].
  pose proof (inject_Z_pos_lt my) as HB.
  pose proof (pow2_pos ey) as HP2.
  assert (HAS : inject_Z (Zpos mx) * 2 ^ s == inject_Z (Zpos my) * inject_Z q + inject_Z r).
  { rewrite <- inject_Z_pow2 by exact Hs.
    rewrite <- !inject_Z_mult, <- inject_Z_plus, <- Hm', Hdiv. reflexivity. }
  assert (HP : 2 ^ ex1 * 2 ^ (- e') == 2 ^ s * 2 ^ ey).
  { rewrite <- !pow2_add. now replace (ex1 + - e')%Z with (s + ey)%Z by (unfold s; lia). }
  setoid_replace (inject_Z (Zpos mx) * 2 ^ ex1 / (inject_Z (Zpos my) * 2 ^ ey) * 2 ^ (- e'))
    with (inject_Z (Zpos mx) * (2 ^ ex1 * 2 ^ (- e')) / (inject_Z (Zpos my) * 2 ^ ey))
    by (field; split; intros Hz; lra).
  rewrite HP.
  setoid_replace (inject_Z (Zpos mx) * (2 ^ s * 2 ^ ey) / (inject_Z (Zpos my) * 2 ^ ey))
    with (inject_Z (Zpos mx) * 2 ^ s / inject_Z (Zpos my))
    by (field; split; intros Hz; lra).
  rewrite HAS. field. intros Hz. lra.
Qed.

(** The quotient of two finite doubles, when it has a finite result. *)
Lemma SFdiv_near (x y : spec_float) (s : bool) (m : positive) (ex : Z) :
  SFdiv prec emax x y = S754_finite s m ex ->
  ~ SF2Q y == 0
  /\ Qabs (SF2Q (S754_finite s m ex) * SF2Q y - SF2Q x)
     <= (1 # 2) * 2 ^ ex * Qabs (SF2Q y).
Proof.
  destruct x as [sx|sx| |sx mx ex1], y as [sy|sy| |sy my ey]; cbn [SFdiv];
    try discriminate.
  pose proof (SFdiv_core_represents mx my ex1 ey) as Hrep.
  destruct (SFdiv_core_binary prec emax (Zpos mx) ex1 (Zpos my) ey) as [[mz ez] lz].
  cbn [fst snd] in Hrep. intros H.
  destruct (binary_round_aux_near _ _ _ _ _ _ _ _ Hrep H) as [Hs Hnear]. subst s.
  pose proof (inject_Z_pos_lt my) as HB.
  pose proof (pow2_pos ey) as HP2.
  assert (HY : 0 < inject_Z (Zpos my) * 2 ^ ey) by (now apply Qmult_lt_0_compat).
  split.
  { cbn [SF2Q]. destruct sy; intros Hz; lra. }
  rewrite (Qabs_SF2Q sy my ey).
  assert (HnearY : Qabs (inject_Z (Zpos m) * 2 ^ ex * (inject_Z (Zpos my) * 2 ^ ey)
                         - inject_Z (Zpos mx) * 2 ^ ex1)
                   <= (1 # 2) * 2 ^ ex * (inject_Z (Zpos my) * 2 ^ ey)).
  { setoid_replace (inject_Z (Zpos m) * 2 ^ ex * (inject_Z (Zpos my) * 2 ^ ey)
                    - inject_Z (Zpos mx) * 2 ^ ex1)
      with ((inject_Z (Zpos m) * 2 ^ ex
             - inject_Z (Zpos mx) * 2 ^ ex1 / (inject_Z (Zpos my) * 2 ^ ey))
            * (inject_Z (Zpos my) * 2 ^ ey))
      by (field; split; intros Hz; lra).
    rewrite Qabs_Qmult, (Qabs_pos (inject_Z (Zpos my) * 2 ^ ey)) by lra.
    apply Qmult_le_compat_r; [exact Hnear|lra]. }
  apply Qabs_Qle_condition in HnearY. apply Qabs_Qle_condition.
  cbn [SF2Q]. destruct sx, sy; cbn [xorb]; lra.
Qed.

(** A quotient that is a normal double is within [2 ^ -53] of the exact
    quotient, relative to itself. *)
Lemma float_div_error (a b : float) :
  normal (a / b) = true ->
  ~ F2Q b == 0
  /\ Qabs (F2Q (a / b) * F2Q b - F2Q a) <= 2 ^ (-53) * Qabs (F2Q (a / b) * F2Q b).
Proof.
  intros H. destruct (normal_finite _ H) as (s & m & ex & E & Hm).
  unfold F2Q. pose proof (div_spec a b) as Hspec. rewrite E in Hspec.
  rewrite E. symmetry in Hspec.
  destruct (SFdiv_near _ _ _ _ _ Hspec) as [Hnz Hnear].
  split; [exact Hnz|].
  eapply Qle_trans; [exact Hnear|].
  rewrite Qabs_Qmult, Qmult_assoc.
  apply Qmult_le_compat_r; [now apply half_ulp_normal|apply Qabs_nonneg].
Qed.

Lemma Qabs_cases (q : Q) : Qabs q == q \/ Qabs q == - q.
Proof.
  destruct (Qlt_le_dec q 0) as [H|H].
  - right. apply Qabs_neg. lra.
  - left. now apply Qabs_pos.
Qed.

(** Multiplying by a double and dividing by it again: when both results
    are normal doubles, the value comes back within [2 ^ -51] of itself. *)
Lemma float_mul_div_error (f x : float) :
  normal (f * x) = true ->
  normal (f * x / f) = true ->
  Qabs (F2Q (f * x / f) - F2Q x) <= 2 ^ (-51) * Qabs (F2Q x).
Proof.
  intros Hy Hz.
  pose proof (float_mul_error f x Hy) as HM.
  destruct (float_div_error (f * x) f Hz) as [HF HD].
  set (Y := F2Q (f * x)) in *. set (F := F2Q f) in *.
  set (X := F2Q x) in *. set (Z := F2Q (f * x / f)) in *.
  assert (HFpos : 0 < Qabs F).
  { destruct (Qlt_le_dec 0 (Qabs F)) as [Hlt|Hle]; [exact Hlt|].
    exfalso. apply HF. pose proof (Qabs_nonneg F) as H0.
    destruct (Qabs_cases F) as [E|E]; lra. }
  assert (Hlin : Qabs (Z * F - F * X) <= 2 ^ (-51) * Qabs (F * X)).
  { change (2 ^ (-53)) with (1 # 9007199254740992) in HM, HD.
    change (2 ^ (-51)) with (1 # 2251799813685248).
    apply Qabs_Qle_condition in HM. apply Qabs_Qle_condition in HD.
    apply Qabs_Qle_condition.
    destruct (Qabs_cases Y) as [EY|EY]; rewrite EY in HM;
      destruct (Qabs_cases (Z * F)) as [EP|EP]; rewrite EP in HD;
      destruct (Qabs_cases (F * X)) as [EX|EX]; rewrite EX;
      pose proof (Qabs_nonneg Y) as HY0; rewrite EY in HY0;
      pose proof (Qabs_nonneg (Z * F)) as HP0; rewrite EP in HP0;
      pose proof (Qabs_nonneg (F * X)) as HX0; rewrite EX in HX0;
      lra. }
  apply (Qmult_le_r _ _ (Qabs F)); [exact HFpos|].
  rewrite <- Qabs_Qmult, <- Qmult_assoc, <- Qabs_Qmult.
  setoid_replace ((Z - X) * F) with (Z * F - F * X) by ring.
  setoid_replace (X * F) with (F * X) by ring.
  exact Hlin.
Qed.

#[local] Close Scope Q_scope.
#[local] Open Scope float_scope.

(** *** The constants *)

(** The doubles of the model are the nearest ones to the decimal literals
    of the source, as Python reads them. *)
Lemma literals_are_nearest :
  (Qabs (F2Q c - 299792458) <= half_ulp c
   /\ Qabs (F2Q h - 6.62607015e-34) < half_ulp h
   /\ Qabs (F2Q hbar - 1.054571817e-34) < half_ulp hbar
   /\ Qabs (F2Q e - 1.602176634e-19) < half_ulp e
   /\ Qabs (F2Q m_e - 9.1093837015e-31) < half_ulp m_e
   /\ Qabs (F2Q alpha - 7.2973525693e-3) < half_ulp alpha)%Q.
Proof.
  split; [apply Qle_bool_iff; vm_compute; reflexivity|].
  repeat split; vm_compute; reflexivity.
Qed.

(** With a faithful [pow], doubling before or after the division by [e]
    is the same double: both readings of [2.0 * En_h / e]. *)
Lemma twice_En_h_over_e :
  pow_faithful -> 2.0 * En_h / e = 2.0 * (En_h / e).
Proof. intros Hpow. pow_cases Hpow; vm_compute; reflexivity. Qed.

(** *** There and back *)

(** C4, as the code has it: for a registered pair with factor [f] (and a
    faithful [pow]), converting a float [x] and reverting the result gives
    the double [(f * x) / f]; whenever the converted and the reverted value
    are normal doubles, that is, nothing overflowed or underflowed, it is
    within [2 ^ -51] of [x], relative to [x]. *)
Theorem C4_round_trip_within_rounding
        (dimension units : string) (f : float) :
  pow_faithful ->
  registered dimension units f ->
  forall (x : float) (w : World),
    mbind (convert_au (VFloat x) dimension (Some units))
          (fun y => revert_au y dimension (Some units)) w
    = (Ok (VFloat (f * x / f)), w)
    /\ (normal (f * x) = true ->
        normal (f * x / f) = true ->
        (Qabs (F2Q (f * x / f) - F2Q x) <= 2 ^ (-51) * Qabs (F2Q x))%Q).
Proof.
  intros Hpow Hr x w.
  destruct (factor_facts _ _ _ Hpow Hr) as (H1 & _ & _ & H0 & _).
  apply registered_data in Hr as (data & Hd & Hu).
  split; [|apply float_mul_div_error].
  unfold mbind at 1.
  rewrite (convert_au_registered _ _ _ _ (VFloat x) w Hd Hu eq_refl).
  cbn [float_mul as_double bind].
  now rewrite (revert_au_registered _ _ data f _ _ Hd Hu H1 H0).
Qed.

(** *** The call of the decorated function *)

(** X1: with units the wrapper accepts, the function is called once, with
    the arguments of the call: the world the call leaves is the world the
    function leaves, and what the function raises is raised as it is. *)
Theorem decorated_call_runs_function_once
        (dimension : string) (data : dict float) (nargs : Z)
        (func : callable) (args : list value) (units : option string)
        (kwargs : dict value) (w : World) :
  dict_get conversion_data dimension = Some data ->
  accepted data units = true ->
  exists deco : callable -> wrapped,
    atomic_units dimension nargs = Ok deco
    /\ snd (deco func args units kwargs w) = snd (func args kwargs w)
    /\ forall (ex : exn) (w' : World),
         func args kwargs w = (Raise ex, w') ->
         deco func args units kwargs w = (Raise ex, w').
Proof.
  intros Hd Ha. exists (decorator dimension nargs data).
  split; [now apply atomic_units_registered|].
  unfold decorator, wrapper.
  destruct (no_conversion units) eqn:Hn.
  { split; [reflexivity|]. intros ex w' H. exact H. }
  destruct units as [u|]; [|discriminate].
  unfold accepted in Ha. rewrite Hn in Ha. cbn [orb] in Ha. rewrite Ha.
  unfold mbind. destruct (func args kwargs w) as [[r|ex0] w0].
  - split; [|intros ex w' H; discriminate].
    destruct r; reflexivity.
  - split; [reflexivity|]. intros ex w' H. exact H.
Qed.

(** *** Tuples *)

Lemma bind_Ok {A B : Type} (a : A) (k : A -> result B) : bind (Ok a) k = k a.
Proof. reflexivity. Qed.

(** The generator is a traversal of the elements below [nargs], followed by
    the other elements as they are. *)
Lemma scale_items_traverse (data : dict float) (units : string) (f : float) (nargs : Z) :
  dict_get data units = Some f ->
  forall (items : list value) (i : Z),
    scale_items data units nargs i items
    = (pre <- traverse (float_mul f) (firstn (Z.to_nat (nargs - i)) items) ;;
       Ok (pre ++ skipn (Z.to_nat (nargs - i)) items)%list)%py.
Proof.
  intros Hf. induction items as [|r items IH]; intros i.
  - cbn [scale_items]. rewrite firstn_nil, skipn_nil. reflexivity.
  - cbn [scale_items]. rewrite IH. destruct (i <? nargs)%Z eqn:Ei.
    + apply Z.ltb_lt in Ei.
      replace (Z.to_nat (nargs - i)) with (S (Z.to_nat (nargs - (i + 1)))) by lia.
      cbn [firstn skipn traverse]. rewrite (dict_get_getitem _ _ _ Hf), bind_Ok.
      destruct (float_mul f r) as [r'|ex]; [|reflexivity]. rewrite !bind_Ok.
      destruct (traverse (float_mul f) (firstn (Z.to_nat (nargs - (i + 1))) items));
        reflexivity.
    + apply Z.ltb_ge in Ei.
      replace (Z.to_nat (nargs - i)) with 0%nat by lia.
      replace (Z.to_nat (nargs - (i + 1))) with 0%nat by lia.
      reflexivity.
Qed.

(** X2: for a registered pair with factor [f], a tuple result comes back as
    [f] times each of its first [nargs] elements, in order, followed by the
    other elements untouched; the first product that raises ends the call
    with its exception. *)
Theorem tuple_result_scales_prefix
        (dimension units : string) (data : dict float) (f : float) (nargs : Z)
        (func : callable) (args : list value) (kwargs : dict value)
        (w w' : World) (items : list value) :
  dict_get conversion_data dimension = Some data ->
  dict_get data units = Some f ->
  func args kwargs w = (Ok (VTuple items), w') ->
  exists deco : callable -> wrapped,
    atomic_units dimension nargs = Ok deco
    /\ deco func args (Some units) kwargs w
       = (pre <- traverse (float_mul f) (firstn (Z.to_nat nargs) items) ;;
          Ok (VTuple (pre ++ skipn (Z.to_nat nargs) items)%list), w').
Proof.
  intros Hd Hu Hr. exists (decorator dimension nargs data).
  split; [now apply atomic_units_registered|].
  pose proof (registered_converts _ _ _ _ Hd Hu) as Hs.
  unfold decorator. rewrite (wrapper_converts _ _ _ _ _ _ _ _ _ _ _ Hs Hu Hr).
  rewrite (scale_items_traverse data units f nargs Hu items 0), Z.sub_0_r.
  destruct (traverse (float_mul f) (firstn (Z.to_nat nargs) items)); reflexivity.
Qed.

(** X3: with [nargs] zero or negative nothing is converted: a tuple result
    comes back as it is, whatever its elements are. *)
Theorem nargs_not_positive_leaves_tuple
        (dimension units : string) (data : dict float) (f : float) (nargs : Z)
        (func : callable) (args : list value) (kwargs : dict value)
        (w w' : World) (items : list value) :
  dict_get conversion_data dimension = Some data ->
  dict_get data units = Some f ->
  (nargs <= 0)%Z ->
  func args kwargs w = (Ok (VTuple items), w') ->
  exists deco : callable -> wrapped,
    atomic_units dimension nargs = Ok deco
    /\ deco func args (Some units) kwargs w = (Ok (VTuple items), w').
Proof.
  intros Hd Hu Hn Hr. exists (decorator dimension nargs data).
  split; [now apply atomic_units_registered|].
  pose proof (registered_converts _ _ _ _ Hd Hu) as Hs.
  unfold decorator. rewrite (wrapper_converts _ _ _ _ _ _ _ _ _ _ _ Hs Hu Hr).
  rewrite (scale_items_traverse data units f nargs Hu items 0), Z.sub_0_r.
  replace (Z.to_nat nargs) with 0%nat by lia. reflexivity.
Qed.

Lemma traverse_fails (g : value -> result value) (ex : exn) :
  forall (l : list value) (k : nat) (r : value),
    nth_error l k = Some r ->
    g r = Raise ex ->
    (forall (j : nat) (r0 : value),
        (j < k)%nat -> nth_error l j = Some r0 -> exists r1, g r0 = Ok r1) ->
    traverse g l = Raise ex.
Proof.
  induction l as [|a l IH]; intros [|k] r Hk Hg Hbefore; try discriminate.
  - inversion Hk; subst a. cbn [traverse]. now rewrite Hg.
  - cbn [traverse]. destruct (Hbefore 0%nat a) as (a' & Ha); [lia|reflexivity|].
    rewrite Ha, bind_Ok.
    rewrite (IH k r Hk Hg); [reflexivity|].
    intros j r0 Hj Hr0. apply (Hbefore (S j) r0); [lia|exact Hr0].
Qed.

(** X4: a tuple result whose element at an index below [nargs] cannot be
    multiplied by a float (None, a str, a list, a tuple, an int too large)
    makes the whole call raise what that product raises, once the elements
    before it were multiplied; no tuple is returned. *)
Theorem unscalable_element_fails_the_call
        (dimension units : string) (data : dict float) (f : float) (nargs : Z)
        (func : callable) (args : list value) (kwargs : dict value)
        (w w' : World) (items : list value) (k : nat) (r : value) (ex : exn) :
  dict_get conversion_data dimension = Some data ->
  dict_get data units = Some f ->
  func args kwargs w = (Ok (VTuple items), w') ->
  (Z.of_nat k < nargs)%Z ->
  nth_error items k = Some r ->
  as_double r = Raise ex ->
  (forall (j : nat) (r0 : value),
      (j < k)%nat -> nth_error items j = Some r0 -> numeric r0 = true) ->
  exists deco : callable -> wrapped,
    atomic_units dimension nargs = Ok deco
    /\ deco func args (Some units) kwargs w = (Raise ex, w').
Proof.
  intros Hd Hu Hr Hk Hnth Hex Hbefore. exists (decorator dimension nargs data).
  split; [now apply atomic_units_registered|].
  pose proof (registered_converts _ _ _ _ Hd Hu) as Hs.
  unfold decorator. rewrite (wrapper_converts _ _ _ _ _ _ _ _ _ _ _ Hs Hu Hr).
  rewrite (scale_items_traverse data units f nargs Hu items 0), Z.sub_0_r.
  rewrite (traverse_fails (float_mul f) ex _ k r); [reflexivity| | |].
  - rewrite nth_error_firstn.
    replace (Nat.ltb k (Z.to_nat nargs)) with true; [exact Hnth|].
    symmetry. apply Nat.ltb_lt. lia.
  - unfold float_mul. now rewrite Hex.
  - intros j r0 Hj Hr0. rewrite nth_error_firstn in Hr0.
    destruct (Nat.ltb j (Z.to_nat nargs)); [|discriminate].
    destruct (numeric_as_double r0 (Hbefore j r0 Hj Hr0)) as (y & Hy).
    unfold float_mul. rewrite Hy. eexists. reflexivity.
Qed.

(** *** Products and quotients that are exact *)

(** Shifting out zeros loses nothing. *)
Lemma shr_exact (m ex : Z) (p : positive) :
  (0 <= m)%Z ->
  shr (Build_shr_record (m * 2 ^ Zpos p) false false) ex (Zpos p)
  = (Build_shr_record m false false, (ex + Zpos p)%Z).
Proof.
  intros Hm. unfold shr. f_equal.
  pose (Inv := fun (k : Z) (R : shr_record) =>
                 (k <= Zpos p)%Z -> R = Build_shr_record (m * 2 ^ (Zpos p - k)) false false).
  assert (H : Inv (0 + Zpos p)%Z
                  (SpecFloat.iter_pos shr_1 p
                     (Build_shr_record (m * 2 ^ Zpos p) false false))).
  { apply (iter_pos_invariant shr_1 Inv).
    - intros k R HR Hk. rewrite HR by lia.
      replace (Zpos p - k)%Z with (Zpos p - (k + 1) + 1)%Z by lia.
      rewrite Z.pow_add_r by lia. change (2 ^ 1)%Z with 2%Z.
      rewrite Z.mul_assoc.
      assert (Hy : (0 <= m * 2 ^ (Zpos p - (k + 1)))%Z)
        by (apply Z.mul_nonneg_nonneg; [exact Hm|apply Z.pow_nonneg; lia]).
      destruct (m * 2 ^ (Zpos p - (k + 1)))%Z as [|q|q]; [reflexivity| |lia].
      replace (Zpos q * 2)%Z with (Zpos q~0) by lia. reflexivity.
    - intros _. now rewrite Z.sub_0_r. }
  rewrite H by lia.
  replace (Zpos p - (0 + Zpos p))%Z with 0%Z by lia.
  now rewrite Z.pow_0_r, Z.mul_1_r.
Qed.

Lemma Zdigits2_mul_pow2 (mx : positive) (k : Z) :
  (0 <= k)%Z ->
  Zdigits2 (Zpos mx * 2 ^ k) = (Zpos (digits2_pos mx) + k)%Z.
Proof.
  intros Hk. destruct (digits2_pos_bounds mx) as [H1 H2].
  assert (HP : (0 < 2 ^ k)%Z) by (apply Z.pow_pos_nonneg; lia).
  assert (Hpos : (0 < Zpos mx * 2 ^ k)%Z) by lia.
  apply Z.le_antisymm.
  - apply Zdigits2_le; [lia|lia|]. rewrite Z.pow_add_r by lia. nia.
  - pose proof (Zdigits2_gt (Zpos mx * 2 ^ k) ltac:(lia)) as Hgt.
    pose proof (Zdigits2_nonneg (Zpos mx * 2 ^ k)) as Hnn.
    destruct (Z.le_gt_cases (Zpos (digits2_pos mx) + k) (Zdigits2 (Zpos mx * 2 ^ k)))
      as [|Hlt]; [assumption|].
    assert (Hle : (2 ^ (Zdigits2 (Zpos mx * 2 ^ k) + 1)
                   <= 2 ^ (Zpos (digits2_pos mx) + k))%Z)
      by (apply Z.pow_le_mono_r; lia).
    rewrite !Z.pow_add_r in Hle by lia. change (2 ^ 1)%Z with 2%Z in Hle. nia.
Qed.

(** A double scaled by a power of two, with the exponent lowered as much,
    rounds to itself. *)
Lemma binary_round_aux_exact (s : bool) (mx : positive) (ex k : Z) :
  bounded prec emax mx ex = true ->
  (0 <= k)%Z ->
  binary_round_aux prec emax s (Zpos mx * 2 ^ k) (ex - k) loc_Exact
  = S754_finite s mx ex.
Proof.
  intros Hb Hk. unfold bounded, canonical_mantissa in Hb.
  apply andb_true_iff in Hb as [Hc He]. apply Z.eqb_eq in Hc.
  unfold binary_round_aux, shr_fexp. rewrite (Zdigits2_mul_pow2 mx k Hk).
  replace (Zpos (digits2_pos mx) + k + (ex - k))%Z with (Zpos (digits2_pos mx) + ex)%Z by lia.
  rewrite Hc. replace (ex - (ex - k))%Z with k by lia.
  cbn [shr_record_of_loc].
  assert (E : shr (Build_shr_record (Zpos mx * 2 ^ k) false false) (ex - k) k
              = (Build_shr_record (Zpos mx) false false, ex)).
  { destruct k as [|p|p]; [|rewrite shr_exact by lia; f_equal; lia|lia].
    cbn [shr]. now rewrite Z.pow_0_r, Z.mul_1_r, Z.sub_0_r. }
  rewrite E. cbn [shr_m loc_of_shr_record round_nearest_even Zdigits2].
  rewrite Hc, Z.sub_diag. cbn [shr shr_m]. now rewrite He.
Qed.

(** [x * 1.0] is [x], for every double. *)
Lemma float_mul_1_r (x : float) : x * 1 = x.
Proof.
  apply Prim2SF_inj. rewrite mul_spec. unfold SF64mul.
  pose proof (Prim2SF_valid x) as Hv.
  change (Prim2SF 1) with (S754_finite false 4503599627370496 (-52)).
  destruct (Prim2SF x) as [s|s| |s m ex]; cbn [SFmul valid_binary] in *;
    rewrite ?xorb_false_r; try reflexivity.
  change (Zpos (m * 4503599627370496)) with (Zpos m * 2 ^ 52)%Z.
  change (ex + -52)%Z with (ex - 52)%Z.
  apply binary_round_aux_exact; [exact Hv|lia].
Qed.

(** [x / 1.0] is [x], for every double. *)
Lemma float_div_1_r (x : float) : x / 1 = x.
Proof.
  apply Prim2SF_inj. rewrite div_spec. unfold SF64div.
  pose proof (Prim2SF_valid x) as Hv.
  change (Prim2SF 1) with (S754_finite false 4503599627370496 (-52)).
  destruct (Prim2SF x) as [s|s| |s m ex]; cbn [SFdiv valid_binary] in *;
    rewrite ?xorb_false_r; try reflexivity.
  assert (Hb := Hv). unfold bounded, canonical_mantissa in Hb.
  apply andb_true_iff in Hb as [Hc _]. apply Z.eqb_eq in Hc. rewrite fexp_eq in Hc.
  unfold SFdiv_core_binary. rewrite fexp_eq.
  change (Zdigits2 (Zpos 4503599627370496)) with 53%Z. cbn [Zdigits2].
  set (d := Zpos (digits2_pos m)) in *.
  assert (Hcases : (Z.min (Z.max (d + ex - (53 + -52) - 53) (-1074)) (ex - -52) = ex
                    \/ Z.min (Z.max (d + ex - (53 + -52) - 53) (-1074)) (ex - -52) = ex - 1)%Z)
    by lia.
  destruct Hcases as [E|E]; rewrite E.
  - replace (ex - -52 - ex)%Z with 52%Z by lia.
    rewrite Z.shiftl_mul_pow2 by lia.
    change (2 ^ 52)%Z with 4503599627370496%Z.
    pose proof (Z.div_eucl_eq (Zpos m * 4503599627370496) 4503599627370496 ltac:(lia)) as Hq.
    pose proof (Z.mod_pos_bound (Zpos m * 4503599627370496) 4503599627370496 ltac:(lia)) as Hr.
    unfold Z.modulo in Hr.
    destruct (Z.div_eucl (Zpos m * 4503599627370496) 4503599627370496) as [q r].
    assert (q = Zpos m /\ r = 0%Z) as [-> ->] by nia.
    change (new_location 4503599627370496 0) with loc_Exact.
    replace (Zpos m) with (Zpos m * 2 ^ 0)%Z at 1 by (rewrite Z.pow_0_r; lia).
    replace ex with (ex - 0)%Z at 1 by lia.
    apply binary_round_aux_exact; [exact Hv|lia].
  - replace (ex - -52 - (ex - 1))%Z with 53%Z by lia.
    rewrite Z.shiftl_mul_pow2 by lia.
    change (2 ^ 53)%Z with 9007199254740992%Z.
    pose proof (Z.div_eucl_eq (Zpos m * 9007199254740992) 4503599627370496 ltac:(lia)) as Hq.
    pose proof (Z.mod_pos_bound (Zpos m * 9007199254740992) 4503599627370496 ltac:(lia)) as Hr.
    unfold Z.modulo in Hr.
    destruct (Z.div_eucl (Zpos m * 9007199254740992) 4503599627370496) as [q r].
    assert (q = (Zpos m * 2 ^ 1)%Z /\ r = 0%Z) as [-> ->] by (change (2 ^ 1)%Z with 2%Z; nia).
    change (new_location 4503599627370496 0) with loc_Exact.
    apply binary_round_aux_exact; [exact Hv|lia].
Qed.

Lemma binary_round_aux_negb (s : bool) (m ex : Z) (l : location) :
  binary_round_aux prec emax (negb s) m ex l
  = SFopp (binary_round_aux prec emax s m ex l).
Proof.
  unfold binary_round_aux. destruct (shr_fexp prec emax m ex l) as [R1 e1].
  destruct (shr_fexp prec emax
              (round_nearest_even (shr_m R1) (loc_of_shr_record R1)) e1 loc_Exact)
    as [R2 e2].
  destruct (shr_m R2); [reflexivity| |reflexivity].
  destruct (e2 <=? emax - prec)%Z; reflexivity.
Qed.

(** [f * -x] is [-(f * x)], for all doubles. *)
Lemma float_mul_opp_r (f x : float) : f * (- x) = - (f * x).
Proof.
  apply Prim2SF_inj. rewrite opp_spec, !mul_spec, opp_spec. unfold SF64mul.
  destruct (Prim2SF f) as [sf|sf| |sf mf ef], (Prim2SF x) as [sx|sx| |sx mx ex];
    cbn [SFmul SFopp]; rewrite <- ?negb_xorb_r; try reflexivity.
  apply binary_round_aux_negb.
Qed.

(** [-x / f] is [-(x / f)], for all doubles. *)
Lemma float_div_opp_l (x f : float) : (- x) / f = - (x / f).
Proof.
  apply Prim2SF_inj. rewrite opp_spec, !div_spec, opp_spec. unfold SF64div.
  destruct (Prim2SF x) as [sx|sx| |sx mx ex], (Prim2SF f) as [sf|sf| |sf mf ef];
    cbn [SFdiv SFopp]; rewrite <- ?negb_xorb_l; try reflexivity.
  destruct (SFdiv_core_binary prec emax (Zpos mx) ex (Zpos mf) ef) as [[mz ez] lz].
  apply binary_round_aux_negb.
Qed.

(** *** The two converters *)

(** [revert_au] for a registered pair, whatever the factor is. *)
Lemma revert_au_quotient (dimension units : string) (data : dict float) (f : float)
      (v : value) (w : World) :
  dict_get conversion_data dimension = Some data ->
  dict_get data units = Some f ->
  revert_au v dimension (Some units) w
  = (x <- as_double v ;;
     if f =? 0 then Raise ZeroDivisionError else Ok (VFloat (x / f)), w).
Proof.
  intros Hd Hu. unfold revert_au. rewrite (atomic_units_registered _ 1%Z _ Hd).
  unfold mbind at 1. unfold ret at 1. unfold decorator. unfold mbind.
  rewrite (wrapper_converts dimension units data f 1%Z (lambda (VInt 1)) [] [] w w (VInt 1)
             (registered_converts _ _ _ _ Hd Hu) Hu eq_refl).
  change (float_mul f (VInt 1)) with (Ok (VFloat (f * 1))). rewrite float_mul_1_r.
  unfold ret, truediv.
  destruct v; cbn [is_int as_double bind]; reflexivity.
Qed.

(** X5: for a registered pair, [convert_au] of the int 1 is the factor of
    the table itself, bit for bit, and [revert_au] divides the value, as a
    double, by that factor; a factor of zero would make it raise
    ZeroDivisionError.  This holds whatever [pow] returns. *)
Theorem revert_au_divides_by_the_factor
        (dimension units : string) (f : float) :
  registered dimension units f ->
  forall w : World,
    convert_au (VInt 1) dimension (Some units) w = (Ok (VFloat f), w)
    /\ convert_au (VFloat 1.0) dimension (Some units) w = (Ok (VFloat f), w)
    /\ forall v : value,
         revert_au v dimension (Some units) w
         = (x <- as_double v ;;
            if f =? 0 then Raise ZeroDivisionError else Ok (VFloat (x / f)), w).
Proof.
  intros Hr w. apply registered_data in Hr as (data & Hd & Hu).
  split.
  { rewrite (convert_au_registered _ _ _ _ (VInt 1) w Hd Hu eq_refl).
    change (float_mul f (VInt 1)) with (Ok (VFloat (f * 1))). now rewrite float_mul_1_r. }
  split.
  { rewrite (convert_au_registered _ _ _ _ (VFloat 1.0) w Hd Hu eq_refl).
    change (float_mul f (VFloat 1.0)) with (Ok (VFloat (f * 1))). now rewrite float_mul_1_r. }
  intros v. now apply revert_au_quotient with (data := data).
Qed.

(** X6: without a conversion (no [units], "au" or "atomic_units"),
    [revert_au] of a float returns the same double: a finite float, a zero
    with its sign and an infinity come back as they are, and a NaN comes
    back as a NaN.  The floats of the model have one NaN, so nothing is said
    about the payload or the signalling bit of a NaN, which the division by
    1 need not keep. *)
Theorem revert_au_no_conversion_is_identity_on_floats
        (dimension : string) (data : dict float) (units : option string)
        (x : float) (w : World) :
  dict_get conversion_data dimension = Some data ->
  no_conversion units = true ->
  revert_au (VFloat x) dimension units w = (Ok (VFloat x), w).
Proof.
  intros Hd Hn. unfold revert_au. rewrite (atomic_units_registered _ 1%Z _ Hd).
  unfold mbind, ret, decorator, wrapper. rewrite Hn. cbn [lambda ret].
  unfold ret, truediv. cbn [is_int as_double bind].
  change (float_of_int 1) with (Ok 1%float). cbn [bind].
  change (1 =? 0) with false. cbn iota. now rewrite float_div_1_r.
Qed.

(** X7: a unit that is neither a spelling of "no conversion" nor an alias
    makes [revert_au] raise the ValueError of the wrapper for every value,
    a number or not: the unit is checked before anything is divided. *)
Theorem revert_au_checks_units_before_value
        (dimension units : string) (data : dict float) (v : value) (w : World) :
  dict_get conversion_data dimension = Some data ->
  no_conversion (Some units) = false ->
  contains data units = false ->
  revert_au v dimension (Some units) w
  = (Raise (ValueError (unrecognised dimension units data)), w).
Proof.
  intros Hd Hn Hc. unfold revert_au. rewrite (atomic_units_registered _ 1%Z _ Hd).
  unfold mbind, ret, decorator, wrapper. now rewrite Hn, Hc.
Qed.

Lemma Zpos_iter_xO (p k : positive) :
  Zpos (Pos.iter xO p k) = (Zpos p * 2 ^ Zpos k)%Z.
Proof.
  induction k as [|k IH] using Pos.peano_ind.
  - cbn [Pos.iter]. lia.
  - rewrite Pos.iter_succ, Pos2Z.inj_xO, IH, Pos2Z.inj_succ, Z.pow_succ_r by lia. lia.
Qed.

(** A mantissa of 53 digits with one more zero rounds as without it. *)
Lemma binary_round_aux_twice (s : bool) (P : positive) (E : Z) :
  Zpos (digits2_pos P) = 53%Z ->
  (-1074 <= E)%Z ->
  binary_round_aux prec emax s (Zpos P * 2 ^ 1) (E - 1) loc_Exact
  = binary_round_aux prec emax s (Zpos P) E loc_Exact.
Proof.
  intros HD HE. unfold binary_round_aux, shr_fexp.
  rewrite Zdigits2_mul_pow2 by lia. cbn [Zdigits2]. rewrite HD, !fexp_eq.
  replace (Z.max (53 + 1 + (E - 1) - 53) (-1074) - (E - 1))%Z with 1%Z by lia.
  replace (Z.max (53 + E - 53) (-1074) - E)%Z with 0%Z by lia.
  cbn [shr_record_of_loc]. rewrite (shr_exact (Zpos P) (E - 1) 1) by lia.
  cbn [shr]. replace (E - 1 + 1)%Z with E by lia. reflexivity.
Qed.

Lemma div_eucl_1 (m : Z) : Z.div_eucl m 1 = (m, 0%Z).
Proof.
  pose proof (Z.div_eucl_eq m 1 ltac:(lia)) as Hq.
  pose proof (Z.mod_pos_bound m 1 ltac:(lia)) as Hr. unfold Z.modulo in Hr.
  destruct (Z.div_eucl m 1) as [q r]. f_equal; lia.
Qed.

(** The quotient of an int by the int 1 is the int rounded to a double. *)
Lemma SFdiv_by_one (s : bool) (p : positive) :
  SFdiv prec emax (S754_finite s p 0) (S754_finite false 1 0)
  = binary_round prec emax s p 0.
Proof.
  cbn [SFdiv]. rewrite xorb_false_r.
  unfold SFdiv_core_binary, binary_round, shl_align. rewrite !fexp_eq.
  cbn [Zdigits2 digits2_pos]. set (d := Zpos (digits2_pos p)).
  assert (Hd : (1 <= d)%Z) by (unfold d; lia).
  destruct (Z.le_gt_cases 54 d) as [Hbig|Hsmall].
  - replace (Z.min (Z.max (d + 0 - (1 + 0) - 53) (-1074)) (0 - 0))%Z with 0%Z by lia.
    cbn [Z.sub Z.opp Z.add]. rewrite div_eucl_1.
    change (new_location 1 0) with loc_Exact.
    destruct (Z.max (d + 0 - 53) (-1074))%Z as [|q|q] eqn:E; [lia|reflexivity|lia].
  - replace (Z.min (Z.max (d + 0 - (1 + 0) - 53) (-1074)) (0 - 0))%Z with (d - 54)%Z by lia.
    replace (0 - 0 - (d - 54))%Z with (54 - d)%Z by lia.
    replace (Z.max (d + 0 - 53) (-1074) - 0)%Z with (d - 53)%Z by lia.
    replace (Z.max (d + 0 - 53) (-1074))%Z with (d - 53)%Z by lia.
    destruct (54 - d)%Z as [|q|q] eqn:Eq; [lia| |lia].
    rewrite Z.shiftl_mul_pow2, div_eucl_1 by lia.
    change (new_location 1 0) with loc_Exact.
    replace (d - 54)%Z with (d - 53 - 1)%Z by lia.
    destruct (d - 53)%Z as [|k|k] eqn:Ek; [|lia|].
    + replace (Zpos q) with 1%Z by lia.
      apply binary_round_aux_twice; [fold d; lia|lia].
    + rewrite Zpos_iter_xO.
      replace (Zpos p * 2 ^ Zpos q)%Z with (Zpos p * 2 ^ Zpos k * 2 ^ 1)%Z
        by (rewrite <- Z.mul_assoc, <- Z.pow_add_r by lia; do 2 f_equal; lia).
      rewrite <- Zpos_iter_xO.
      apply binary_round_aux_twice; [|lia].
      change (Zpos (digits2_pos (Pos.iter xO p k))) with (Zdigits2 (Zpos (Pos.iter xO p k))).
      rewrite Zpos_iter_xO, Zdigits2_mul_pow2 by lia. fold d. lia.
Qed.

(** [n / 1] for an int is [float(n)]. *)
Lemma int_truediv_1 (n : Z) :
  int_truediv n 1 = (x <- float_of_int n ;; Ok (VFloat x))%py.
Proof.
  unfold int_truediv, float_of_int, binary_normalize.
  destruct n as [|p|p]; [reflexivity| |];
    cbn [Z.ltb Z.compare Z.abs Z.to_pos]; rewrite SFdiv_by_one;
    destruct (binary_round prec emax _ p 0); reflexivity.
Qed.

(** X8: without a conversion (no [units], "au" or "atomic_units"),
    [revert_au] of an int is the int rounded to the nearest double, ties to
    even, or OverflowError beyond the range of a double, and [revert_au] of
    a bool is 1.0 or 0.0: a float, where [convert_au] returns the int or
    the bool itself.  None, a str, a list and a tuple raise TypeError. *)
Theorem revert_au_no_conversion_is_float_of_value
        (dimension : string) (data : dict float) (units : option string)
        (v : value) (w : World) :
  dict_get conversion_data dimension = Some data ->
  no_conversion units = true ->
  (forall n : Z,
      v = VInt n ->
      revert_au v dimension units w
      = (match binary_normalize prec emax n 0 false with
         | S754_infinity _ => Raise OverflowError
         | sf => Ok (VFloat (SF2Prim sf))
         end, w))
  /\ (forall b : bool,
         v = VBool b ->
         revert_au v dimension units w = (Ok (VFloat (if b then 1 else 0)), w))
  /\ (v = VNone \/ (exists s : string, v = VStr s)
       \/ (exists items : list value, v = VList items)
       \/ (exists items : list value, v = VTuple items) ->
       revert_au v dimension units w = (Raise TypeError, w)).
Proof.
  intros Hd Hn.
  assert (H : revert_au v dimension units w = (x <- as_double v ;; Ok (VFloat x), w)).
  { unfold revert_au. rewrite (atomic_units_registered _ 1%Z _ Hd).
    unfold mbind, ret, decorator, wrapper. rewrite Hn. cbn [lambda ret].
    unfold ret, truediv. f_equal.
    destruct v as [|b|n|x|s|items|items]; cbn [is_int as_double bind]; try reflexivity.
    - destruct b; reflexivity.
    - apply int_truediv_1.
    - change (float_of_int 1) with (Ok 1%float). cbn [bind].
      change (1 =? 0) with false. cbn iota. now rewrite float_div_1_r. }
  rewrite H. split; [|split].
  - intros n ->. cbn [as_double]. unfold float_of_int.
    destruct (binary_normalize prec emax n 0 false); reflexivity.
  - intros b ->. reflexivity.
  - intros [->|[[s ->]|[[items ->]|[items ->]]]]; reflexivity.
Qed.

(** X10: for a registered pair, [convert_au] of a tuple multiplies its
    first element only (the default [nargs] of 1) and keeps the others,
    numbers or not; the empty tuple stays empty; [revert_au] of a tuple
    raises TypeError. *)
Theorem convert_au_scales_first_of_tuple
        (dimension units : string) (f : float) :
  registered dimension units f ->
  forall w : World,
    (forall (r : value) (rest : list value),
        convert_au (VTuple (r :: rest)) dimension (Some units) w
        = (r' <- float_mul f r ;; Ok (VTuple (r' :: rest)), w))
    /\ convert_au (VTuple []) dimension (Some units) w = (Ok (VTuple []), w)
    /\ forall items : list value,
         revert_au (VTuple items) dimension (Some units) w = (Raise TypeError, w).
Proof.
  intros Hr w. apply registered_data in Hr as (data & Hd & Hu).
  pose proof (registered_converts _ _ _ _ Hd Hu) as Hs.
  assert (Hc : forall items,
             convert_au (VTuple items) dimension (Some units) w
             = (items' <- scale_items data units 1 0 items ;; Ok (VTuple items'), w)).
  { intros items. unfold convert_au. rewrite (atomic_units_registered _ 1%Z _ Hd).
    unfold mbind at 1. unfold ret at 1. unfold decorator.
    now rewrite (wrapper_converts dimension units data f 1%Z (lambda (VTuple items))
                   [] [] w w (VTuple items) Hs Hu eq_refl). }
  split; [|split].
  - intros r rest. rewrite Hc, (scale_items_traverse data units f 1 Hu).
    change (Z.to_nat (1 - 0)) with 1%nat. cbn [firstn skipn traverse].
    destruct (float_mul f r); reflexivity.
  - now rewrite Hc.
  - intros items. now rewrite (revert_au_quotient _ _ data f _ _ Hd Hu).
Qed.

(** X11: with a faithful [pow], both converters are odd on floats: the
    opposite of a float converts, and reverts, to the opposite of what the
    float converts, and reverts, to, bit for bit; rounding to nearest even
    never looks at the sign. *)
Theorem conversion_is_odd
        (dimension units : string) (f : float) :
  pow_faithful ->
  registered dimension units f ->
  forall (x : float) (w : World),
    convert_au (VFloat x) dimension (Some units) w = (Ok (VFloat (f * x)), w)
    /\ convert_au (VFloat (- x)) dimension (Some units) w = (Ok (VFloat (- (f * x))), w)
    /\ revert_au (VFloat x) dimension (Some units) w = (Ok (VFloat (x / f)), w)
    /\ revert_au (VFloat (- x)) dimension (Some units) w = (Ok (VFloat (- (x / f))), w).
Proof.
  intros Hpow Hr x w.
  destruct (factor_facts _ _ _ Hpow Hr) as (_ & _ & _ & H0 & _).
  apply registered_data in Hr as (data & Hd & Hu).
  rewrite (convert_au_registered _ _ data f (VFloat x) w Hd Hu eq_refl).
  rewrite (convert_au_registered _ _ data f (VFloat (- x)) w Hd Hu eq_refl).
  rewrite !(revert_au_quotient _ _ data f _ w Hd Hu).
  unfold float_mul. cbn [as_double bind]. rewrite H0, float_mul_opp_r, float_div_opp_l.
  repeat split.
Qed.

Lemma factor_special_values (dimension units : string) (f : float) :
  pow_faithful ->
  registered dimension units f ->
  Forall (fun s : float => f * s = s /\ s / f = s)
         [0; -0; infinity; neg_infinity; nan].
Proof.
  intros Hpow Hr. apply registered_data in Hr as (data & Hd & Hu).
  table_rows Hd Hu; pow_cases Hpow;
    repeat (apply Forall_cons; [split; vm_compute; reflexivity|]); apply Forall_nil.
Qed.

(** X12: with a faithful [pow], the two zeros, the two infinities and NaN
    pass through every registered conversion, both ways, as they are: the
    factors are positive and finite, so they keep the sign of a zero and of
    an infinity. *)
Theorem special_values_pass_through
        (dimension units : string) (f : float) :
  pow_faithful ->
  registered dimension units f ->
  forall w : World,
    Forall (fun s : float =>
              convert_au (VFloat s) dimension (Some units) w = (Ok (VFloat s), w)
              /\ revert_au (VFloat s) dimension (Some units) w = (Ok (VFloat s), w))
           [0; -0; infinity; neg_infinity; nan].
Proof.
  intros Hpow Hr w.
  destruct (factor_facts _ _ _ Hpow Hr) as (_ & _ & _ & H0 & _).
  pose proof (factor_special_values _ _ _ Hpow Hr) as Hs.
  apply registered_data in Hr as (data & Hd & Hu).
  eapply Forall_impl; [|exact Hs]. cbv beta. intros s [Hm Hq].
  rewrite (convert_au_registered _ _ data f (VFloat s) w Hd Hu eq_refl).
  rewrite (revert_au_quotient _ _ data f _ w Hd Hu).
  unfold float_mul. cbn [as_double bind]. now rewrite H0, Hm, Hq.
Qed.

(** *** The constants and the table *)

(** X13: the constants of positronium derived from those of the electron
    lose nothing to rounding: the mass is exactly twice the electron's, the
    Rydberg constant exactly half, and the Bohr radius exactly twice the
    double [a0]. *)
Theorem positronium_constants_are_exact :
  (F2Q mass == 2 * F2Q m_e)%Q
  /\ (F2Q mu_me == 1 # 2)%Q
  /\ (F2Q Ry_ps == F2Q Ry * (1 # 2))%Q
  /\ (F2Q a_ps == 2 * F2Q a0)%Q.
Proof. repeat split; vm_compute; reflexivity. Qed.

(** X14: the table has the three dimensions energy, length and electric
    field; each of them has the alias "SI", and none has "au" or
    "atomic_units" as an alias, so the two tests of the wrapper never
    compete. *)
Theorem every_dimension_has_SI_and_no_sentinel
        (dimension : string) (data : dict float) :
  dict_get conversion_data dimension = Some data ->
  In dimension ["energy"; "length"; "electric field"]
  /\ keys conversion_data = ["energy"; "length"; "electric field"]
  /\ contains data "SI" = true
  /\ contains data "au" = false
  /\ contains data "atomic_units" = false.
Proof.
  intros Hd. apply dimension_inv in Hd. unfold conversion_table in Hd.
  cbn [In] in Hd.
  repeat match goal with
         | H : _ \/ _ |- _ => destruct H
         | H : False |- _ => destruct H
         | H : (_, _) = (_, _) |- _ => inversion H; clear H; subst
         end;
    (split; [cbn [In]; tauto|]); repeat split; reflexivity.
Qed.

End constants.

Arguments mbind {World A B} m k _.
Arguments lambda {World} v args kwargs _.
Arguments convert_au pow {World} v dimension units _.
Arguments revert_au pow {World} v dimension units _.

(** ** The properties at given inputs *)

Lemma square_pow_faithful : pow_faithful square_pow.
Proof. intros x. left. reflexivity. Qed.

Lemma C1_witness :
  dict_get (conversion_data square_pow) "energy" = Some (energy_units square_pow)
  /\ exists deco : callable nat -> wrapped nat,
       atomic_units square_pow nat "energy" 1 = Ok deco
       /\ deco tick [] None [] 0%nat = (Ok (VFloat 2.0), 1%nat)
       /\ deco tick [] (Some "au") [] 0%nat = (Ok (VFloat 2.0), 1%nat).
Proof.
  split; [reflexivity|].
  destruct (C1_no_conversion_returns_result_unchanged square_pow nat
              "energy" (energy_units square_pow) 1 tick [] [] 0%nat eq_refl)
    as (deco & Hdeco & Hnone & Hau & _).
  exists deco. split; [exact Hdeco|]. split; [exact Hnone|exact Hau].
Defined.

Lemma C2_witness :
  dict_get (conversion_data square_pow) "energy" = Some (energy_units square_pow)
  /\ dict_get (energy_units square_pow) "eV" = Some (En_h square_pow / e)%float
  /\ tick [] [] 0%nat = (Ok (VFloat 2.0), 1%nat)
  /\ exists deco : callable nat -> wrapped nat,
       atomic_units square_pow nat "energy" 1 = Ok deco
       /\ deco tick [] (Some "eV") [] 0%nat
          = (Ok (VFloat (En_h square_pow / e * 2.0)), 1%nat).
Proof.
  split; [reflexivity|]. split; [reflexivity|]. split; [reflexivity|].
  destruct (C2_registered_unit_scales_leading_elements square_pow nat
              "energy" "eV" (energy_units square_pow) (En_h square_pow / e)%float 1
              tick [] [] 0%nat 1%nat (VFloat 2.0) eq_refl eq_refl eq_refl)
    as (deco & Hdeco & Hscalar & _).
  exists deco. split; [exact Hdeco|]. exact (Hscalar 2.0%float eq_refl).
Defined.

Lemma C3_witness :
  dict_get (conversion_data square_pow) "energy" = Some (energy_units square_pow)
  /\ no_conversion (Some "furlong") = false
  /\ contains (energy_units square_pow) "furlong" = false
  /\ exists (deco : callable nat -> wrapped nat) (msg : string),
       atomic_units square_pow nat "energy" 1 = Ok deco
       /\ deco tick [] (Some "furlong") [] 0%nat = (Raise (ValueError msg), 0%nat)
       /\ includes "energy" msg
       /\ includes "furlong" msg.
Proof.
  split; [reflexivity|]. split; [reflexivity|]. split; [reflexivity|].
  destruct (C3_unknown_unit_raises_listing_aliases square_pow nat
              "energy" "furlong" (energy_units square_pow) 1 tick [] [] 0%nat
              eq_refl eq_refl eq_refl)
    as (deco & msg & Hdeco & Hcall & _ & Hdim & Hunit & _).
  exists deco, msg. repeat split; assumption.
Defined.

Lemma C5_witness :
  pow_faithful square_pow
  /\ registered square_pow "energy" "eV" (En_h square_pow / e)%float
  /\ convert_au square_pow (VFloat 3.0) "energy" (Some "eV") tt
     = (Ok (VFloat (3.0 * (En_h square_pow / e))), tt)
  /\ revert_au square_pow (VFloat 3.0) "energy" (Some "eV") tt
     = (Ok (VFloat (3.0 / (En_h square_pow / e))), tt).
Proof.
  split; [exact square_pow_faithful|]. split; [reflexivity|].
  destruct (C5_convert_multiplies_revert_divides square_pow unit
              "energy" "eV" (En_h square_pow / e)%float
              square_pow_faithful eq_refl 3.0%float tt)
    as (Hc & Hr & _).
  split; [exact Hc|exact Hr].
Defined.

Lemma C6_witness :
  In ("energy", ["SI"; "joule"; "J"]) alias_groups
  /\ In "SI" ["SI"; "joule"; "J"]
  /\ In "J" ["SI"; "joule"; "J"]
  /\ exists f : float,
       registered square_pow "energy" "SI" f
       /\ registered square_pow "energy" "J" f
       /\ forall (x : value) (w : unit),
            convert_au square_pow x "energy" (Some "SI") w
            = convert_au square_pow x "energy" (Some "J") w.
Proof.
  split; [left; reflexivity|]. split; [left; reflexivity|].
  split; [right; right; left; reflexivity|].
  exact (C6_aliases_share_one_factor square_pow unit "energy" ["SI"; "joule"; "J"] "SI" "J"
           (or_introl eq_refl) (or_introl eq_refl)
           (or_intror (or_intror (or_introl eq_refl)))).
Defined.

Lemma C7_witness :
  contains (conversion_data square_pow) "time" = false
  /\ atomic_units square_pow nat "time" 2 = Raise (KeyError "time")
  /\ revert_au square_pow (VFloat 1.0) "time" (Some "s") 0%nat
     = (Raise (KeyError "time"), 0%nat).
Proof.
  split; [reflexivity|].
  destruct (C7_unregistered_dimension_raises_KeyError_at_wrap_time square_pow nat
              "time" 2 eq_refl) as (Hwrap & Hcall).
  split; [exact Hwrap|].
  exact (proj2 (Hcall (VFloat 1.0) (Some "s") 0%nat)).
Defined.

(** [atomic_units] on a dimension that is not in the table raises KeyError
    before there is anything to decorate, and so does [convert_au] even
    without units. *)
Lemma C7_counterexample :
  atomic_units square_pow unit "mass" 1 = Raise (KeyError "mass")
  /\ convert_au square_pow (VFloat 1.0) "mass" None tt = (Raise (KeyError "mass"), tt).
Proof. split; reflexivity. Qed.

Lemma C8_witness :
  pow_faithful square_pow
  /\ convert_au square_pow (VFloat 1.0) "energy" (Some "eV") tt
     = (Ok (VFloat (En_h square_pow / e)), tt)
  /\ (27.2113862459355 <= F2Q (En_h square_pow / e))%Q.
Proof.
  split; [exact square_pow_faithful|].
  destruct (C8_one_atomic_unit_in_eV_Hz_cm square_pow unit square_pow_faithful tt)
    as (HeV & Hlo & _).
  split; [exact HeV|exact Hlo].
Defined.

(** One atomic unit of energy in eV is the double 27.211386245935508, below
    27.211386245988. *)
Lemma C8_counterexample :
  convert_au square_pow (VFloat 1.0) "energy" (Some "eV") tt
  = (Ok (VFloat 27.211386245935508), tt)
  /\ (F2Q 27.211386245935508 < 27.211386245988)%Q.
Proof. split; [vm_compute; reflexivity|vm_compute; reflexivity]. Qed.

Lemma C9_witness :
  pow_faithful square_pow
  /\ registered square_pow "length" "cm" (a0 * 100.0)%float
  /\ (0 <? a0 * 100.0)%float = true
  /\ revert_au square_pow (VInt 2) "length" (Some "cm") tt
     = (x <- as_double (VInt 2) ;; Ok (VFloat (x / (a0 * 100.0))), tt).
Proof.
  split; [exact square_pow_faithful|]. split; [reflexivity|].
  destruct (C9_factors_are_positive square_pow unit "length" "cm" (a0 * 100.0)%float
              square_pow_faithful eq_refl) as (Hpos & _ & _ & Hrev).
  split; [exact Hpos|exact (Hrev (VInt 2) tt)].
Defined.


Lemma C4_witness :
  pow_faithful square_pow
  /\ registered square_pow "energy" "eV" (En_h square_pow / e)%float
  /\ normal (En_h square_pow / e * 3.0) = true
  /\ normal (En_h square_pow / e * 3.0 / (En_h square_pow / e)) = true
  /\ mbind (convert_au square_pow (VFloat 3.0) "energy" (Some "eV"))
           (fun y => revert_au square_pow y "energy" (Some "eV")) tt
     = (Ok (VFloat (En_h square_pow / e * 3.0 / (En_h square_pow / e))), tt)
  /\ (Qabs (F2Q (En_h square_pow / e * 3.0 / (En_h square_pow / e)) - F2Q 3.0)
      <= 2 ^ (-51) * Qabs (F2Q 3.0))%Q.
Proof.
  split; [exact square_pow_faithful|]. split; [reflexivity|].
  split; [reflexivity|]. split; [reflexivity|].
  destruct (C4_round_trip_within_rounding square_pow unit
              "energy" "eV" (En_h square_pow / e)%float
              square_pow_faithful eq_refl 3.0%float tt) as (Hback & Hnear).
  split; [exact Hback|]. exact (Hnear eq_refl eq_refl).
Defined.

(** The finite float 1e308 converted to Hz overflows, and comes back as
    infinity; the smallest positive float converted to joule underflows,
    and comes back as zero. *)
Lemma C4_counterexample :
  (1e308 <? infinity)%float = true
  /\ convert_au square_pow (VFloat 1e308) "energy" (Some "Hz") tt
     = (Ok (VFloat infinity), tt)
  /\ mbind (convert_au square_pow (VFloat 1e308) "energy" (Some "Hz"))
           (fun y => revert_au square_pow y "energy" (Some "Hz")) tt
     = (Ok (VFloat infinity), tt)
  /\ (0 <? 5e-324)%float = true
  /\ mbind (convert_au square_pow (VFloat 5e-324) "energy" (Some "joule"))
           (fun y => revert_au square_pow y "energy" (Some "joule")) tt
     = (Ok (VFloat 0), tt).
Proof. repeat split; vm_compute; reflexivity. Qed.

(** *** Instances of the properties of the call and of the converters *)

Lemma decorated_call_runs_function_once_witness :
  dict_get (conversion_data square_pow) "energy" = Some (energy_units square_pow)
  /\ accepted (energy_units square_pow) (Some "eV") = true
  /\ exists deco : callable nat -> wrapped nat,
       atomic_units square_pow nat "energy" 1 = Ok deco
       /\ snd (deco broken [] (Some "eV") [] 0%nat) = 1%nat
       /\ deco broken [] (Some "eV") [] 0%nat
          = (Raise (UserError "RuntimeError" "no data"), 1%nat).
Proof.
  split; [reflexivity|]. split; [reflexivity|].
  destruct (decorated_call_runs_function_once square_pow nat
              "energy" (energy_units square_pow) 1 broken [] (Some "eV") [] 0%nat
              eq_refl eq_refl)
    as (deco & Hdeco & Hworld & Hraise).
  exists deco. split; [exact Hdeco|]. split; [exact Hworld|].
  exact (Hraise _ _ eq_refl).
Defined.

Lemma tuple_result_scales_prefix_witness :
  dict_get (conversion_data square_pow) "energy" = Some (energy_units square_pow)
  /\ dict_get (energy_units square_pow) "eV" = Some (En_h square_pow / e)%float
  /\ readings [] [] 0%nat = (Ok (VTuple [VFloat 2.0; VStr "a"; VInt 3]), 1%nat)
  /\ exists deco : callable nat -> wrapped nat,
       atomic_units square_pow nat "energy" 1 = Ok deco
       /\ deco readings [] (Some "eV") [] 0%nat
          = (Ok (VTuple [VFloat (En_h square_pow / e * 2.0); VStr "a"; VInt 3]), 1%nat).
Proof.
  split; [reflexivity|]. split; [reflexivity|]. split; [reflexivity|].
  destruct (tuple_result_scales_prefix square_pow nat
              "energy" "eV" (energy_units square_pow) (En_h square_pow / e)%float 1
              readings [] [] 0%nat 1%nat [VFloat 2.0; VStr "a"; VInt 3]
              eq_refl eq_refl eq_refl)
    as (deco & Hdeco & Hcall).
  exists deco. split; [exact Hdeco|exact Hcall].
Defined.

Lemma nargs_not_positive_leaves_tuple_witness :
  dict_get (conversion_data square_pow) "energy" = Some (energy_units square_pow)
  /\ dict_get (energy_units square_pow) "eV" = Some (En_h square_pow / e)%float
  /\ (-1 <= 0)%Z
  /\ readings [] [] 0%nat = (Ok (VTuple [VFloat 2.0; VStr "a"; VInt 3]), 1%nat)
  /\ exists deco : callable nat -> wrapped nat,
       atomic_units square_pow nat "energy" (-1) = Ok deco
       /\ deco readings [] (Some "eV") [] 0%nat
          = (Ok (VTuple [VFloat 2.0; VStr "a"; VInt 3]), 1%nat).
Proof.
  split; [reflexivity|]. split; [reflexivity|]. split; [lia|]. split; [reflexivity|].
  destruct (nargs_not_positive_leaves_tuple square_pow nat
              "energy" "eV" (energy_units square_pow) (En_h square_pow / e)%float (-1)
              readings [] [] 0%nat 1%nat [VFloat 2.0; VStr "a"; VInt 3]
              eq_refl eq_refl ltac:(lia) eq_refl)
    as (deco & Hdeco & Hcall).
  exists deco. split; [exact Hdeco|exact Hcall].
Defined.

Lemma unscalable_element_fails_the_call_witness :
  dict_get (conversion_data square_pow) "energy" = Some (energy_units square_pow)
  /\ dict_get (energy_units square_pow) "eV" = Some (En_h square_pow / e)%float
  /\ readings [] [] 0%nat = (Ok (VTuple [VFloat 2.0; VStr "a"; VInt 3]), 1%nat)
  /\ (Z.of_nat 1 < 2)%Z
  /\ nth_error [VFloat 2.0; VStr "a"; VInt 3] 1 = Some (VStr "a")
  /\ as_double (VStr "a") = Raise TypeError
  /\ (forall (j : nat) (r0 : value),
         (j < 1)%nat -> nth_error [VFloat 2.0; VStr "a"; VInt 3] j = Some r0 ->
         numeric r0 = true)
  /\ exists deco : callable nat -> wrapped nat,
       atomic_units square_pow nat "energy" 2 = Ok deco
       /\ deco readings [] (Some "eV") [] 0%nat = (Raise TypeError, 1%nat).
Proof.
  assert (Hbefore : forall (j : nat) (r0 : value),
             (j < 1)%nat -> nth_error [VFloat 2.0; VStr "a"; VInt 3] j = Some r0 ->
             numeric r0 = true).
  { intros [|j] r0 Hj Hr0; [|lia]. inversion Hr0. reflexivity. }
  split; [reflexivity|]. split; [reflexivity|]. split; [reflexivity|].
  split; [cbn; lia|]. split; [reflexivity|]. split; [reflexivity|].
  split; [exact Hbefore|].
  destruct (unscalable_element_fails_the_call square_pow nat
              "energy" "eV" (energy_units square_pow) (En_h square_pow / e)%float 2
              readings [] [] 0%nat 1%nat [VFloat 2.0; VStr "a"; VInt 3]
              1%nat (VStr "a") TypeError
              eq_refl eq_refl eq_refl ltac:(cbn; lia) eq_refl eq_refl Hbefore)
    as (deco & Hdeco & Hcall).
  exists deco. split; [exact Hdeco|exact Hcall].
Defined.

Lemma revert_au_divides_by_the_factor_witness :
  registered square_pow "length" "cm" (a0 * 100.0)%float
  /\ convert_au square_pow (VInt 1) "length" (Some "cm") tt
     = (Ok (VFloat (a0 * 100.0)), tt)
  /\ revert_au square_pow (VStr "a") "length" (Some "cm") tt = (Raise TypeError, tt).
Proof.
  split; [reflexivity|].
  destruct (revert_au_divides_by_the_factor square_pow unit
              "length" "cm" (a0 * 100.0)%float eq_refl tt) as (Hone & _ & Hrev).
  split; [exact Hone|exact (Hrev (VStr "a"))].
Defined.

Lemma revert_au_no_conversion_is_identity_on_floats_witness :
  dict_get (conversion_data square_pow) "length" = Some length_units
  /\ no_conversion (Some "au") = true
  /\ revert_au square_pow (VFloat 3.5) "length" (Some "au") tt = (Ok (VFloat 3.5), tt).
Proof.
  split; [reflexivity|]. split; [reflexivity|].
  exact (revert_au_no_conversion_is_identity_on_floats square_pow unit
           "length" length_units (Some "au") 3.5%float tt eq_refl eq_refl).
Defined.

Lemma revert_au_checks_units_before_value_witness :
  dict_get (conversion_data square_pow) "length" = Some length_units
  /\ no_conversion (Some "furlong") = false
  /\ contains length_units "furlong" = false
  /\ revert_au square_pow (VStr "a") "length" (Some "furlong") tt
     = (Raise (ValueError (unrecognised "length" "furlong" length_units)), tt).
Proof.
  split; [reflexivity|]. split; [reflexivity|]. split; [reflexivity|].
  exact (revert_au_checks_units_before_value square_pow unit
           "length" "furlong" length_units (VStr "a") tt eq_refl eq_refl eq_refl).
Defined.

Lemma revert_au_no_conversion_is_float_of_value_witness :
  dict_get (conversion_data square_pow) "length" = Some length_units
  /\ no_conversion None = true
  /\ revert_au square_pow (VInt 4) "length" None tt = (Ok (VFloat 4), tt)
  /\ revert_au square_pow (VBool true) "length" None tt = (Ok (VFloat 1), tt).
Proof.
  split; [reflexivity|]. split; [reflexivity|].
  destruct (revert_au_no_conversion_is_float_of_value square_pow unit
              "length" length_units None (VInt 4) tt eq_refl eq_refl)
    as (Hint & _).
  destruct (revert_au_no_conversion_is_float_of_value square_pow unit
              "length" length_units None (VBool true) tt eq_refl eq_refl)
    as (_ & Hbool & _).
  split; [exact (Hint 4%Z eq_refl)|exact (Hbool true eq_refl)].
Defined.

Lemma convert_au_scales_first_of_tuple_witness :
  registered square_pow "length" "cm" (a0 * 100.0)%float
  /\ convert_au square_pow (VTuple [VInt 2; VStr "a"]) "length" (Some "cm") tt
     = (Ok (VTuple [VFloat (a0 * 100.0 * 2); VStr "a"]), tt)
  /\ revert_au square_pow (VTuple [VInt 2; VStr "a"]) "length" (Some "cm") tt
     = (Raise TypeError, tt).
Proof.
  split; [reflexivity|].
  destruct (convert_au_scales_first_of_tuple square_pow unit
              "length" "cm" (a0 * 100.0)%float eq_refl tt) as (Hcons & _ & Hrev).
  split; [exact (Hcons (VInt 2) [VStr "a"])|exact (Hrev _)].
Defined.

Lemma conversion_is_odd_witness :
  pow_faithful square_pow
  /\ registered square_pow "length" "cm" (a0 * 100.0)%float
  /\ convert_au square_pow (VFloat (- 3.0)) "length" (Some "cm") tt
     = (Ok (VFloat (- (a0 * 100.0 * 3.0))), tt)
  /\ revert_au square_pow (VFloat (- 3.0)) "length" (Some "cm") tt
     = (Ok (VFloat (- (3.0 / (a0 * 100.0)))), tt).
Proof.
  split; [exact square_pow_faithful|]. split; [reflexivity|].
  destruct (conversion_is_odd square_pow unit "length" "cm" (a0 * 100.0)%float
              square_pow_faithful eq_refl 3.0%float tt) as (_ & Hc & _ & Hr).
  split; [exact Hc|exact Hr].
Defined.

Lemma special_values_pass_through_witness :
  pow_faithful square_pow
  /\ registered square_pow "energy" "Hz" (En_h square_pow / h)%float
  /\ Forall (fun s : float =>
               convert_au square_pow (VFloat s) "energy" (Some "Hz") tt
               = (Ok (VFloat s), tt)
               /\ revert_au square_pow (VFloat s) "energy" (Some "Hz") tt
                  = (Ok (VFloat s), tt))
            [0; -0; infinity; neg_infinity; nan]%float.
Proof.
  split; [exact square_pow_faithful|]. split; [reflexivity|].
  exact (special_values_pass_through square_pow unit "energy" "Hz"
           (En_h square_pow / h)%float square_pow_faithful eq_refl tt).
Defined.

Lemma every_dimension_has_SI_and_no_sentinel_witness :
  dict_get (conversion_data square_pow) "electric field" = Some (electric_field_units square_pow)
  /\ In "electric field" ["energy"; "length"; "electric field"]
  /\ contains (electric_field_units square_pow) "SI" = true
  /\ contains (electric_field_units square_pow) "au" = false.
Proof.
  split; [reflexivity|].
  destruct (every_dimension_has_SI_and_no_sentinel square_pow
              "electric field" (electric_field_units square_pow) eq_refl)
    as (Hin & _ & HSI & Hau & _).
  split; [exact Hin|]. split; [exact HSI|exact Hau].
Defined.
